(** * Flood Guard sensor API: the rolling sensor store of [server.py]

    A shallow embedding of the request handlers of [src/server.py] (the
    FastAPI application "Flood Guard") and of the pydantic models of
    [src/Models/server.py] and [src/Models/api.py], followed by the
    properties of the store that the handlers maintain.

    Conventions of the embedding.
    - A Python [str] is a Rocq [string] whose characters are the code
      points U+0000..U+00FF; [str.strip], [str.lower] and the comparison of
      strings are written out as CPython defines them on these code points.
    - A Python [float] is a primitive binary64 [float]: comparisons are the
      IEEE ones ([<?], [<=?]), arithmetic is correctly rounded, and
      [round(x, 2)] is computed on the exact binary value.
    - A Python [int] is a [Z].
    - The module-level list [sensor_data] and the file [DATA_FILE] are
      fields of the record [Server]; a handler is a computation in the
      monad [M], which threads the server and may raise an
      [HTTPException]. Handlers are [async def] without [await]: each runs
      to completion before the next starts.
    - The wall clock ([datetime.now().isoformat()]) and the outcome of
      writing the file are inputs of the handlers that use them; the part
      of the [datetime] module that [get_statistics] calls is the interface
      [Datetime]. Removing an existing file is taken to succeed. *)

From Stdlib Require Import ZArith List String Ascii Bool Lia Floats DecimalString.
From stdpp Require Import gmap strings list sorting.

Local Open Scope string_scope.
Local Open Scope list_scope.
Local Open Scope Z_scope.

(** ** Python built-ins used by the handlers *)

Module Py.

(** [Py_UNICODE_ISSPACE] on the code points below U+0100: TAB..CR,
    FS..US, SPACE, NEL (0x85) and NBSP (0xA0). *)
Definition isspace (c : ascii) : bool :=
  let n := N_of_ascii c in
  ((9 <=? n) && (n <=? 13) || (28 <=? n) && (n <=? 32)
   || (n =? 133) || (n =? 160))%N.

Fixpoint lstrip (s : string) : string :=
  match s with
  | EmptyString => EmptyString
  | String c s' => if isspace c then lstrip s' else s
  end.

Fixpoint rstrip (s : string) : string :=
  match s with
  | EmptyString => EmptyString
  | String c s' =>
      match rstrip s' with
      | EmptyString => if isspace c then EmptyString else String c EmptyString
      | r => String c r
      end
  end.

(** [str.strip()] with no argument. *)
Definition strip (s : string) : string := rstrip (lstrip s).

(** [str.lower()] on one code point below U+0100: A..Z and the Latin-1
    capitals U+00C0..U+00DE (without the multiplication sign U+00D7) move up
    by 32; every other code point is its own lower case. *)
Definition lower_char (c : ascii) : ascii :=
  let n := N_of_ascii c in
  if ((65 <=? n) && (n <=? 90)
      || (192 <=? n) && (n <=? 222) && negb (n =? 215))%N
  then ascii_of_N (n + 32) else c.

Fixpoint lower (s : string) : string :=
  match s with
  | EmptyString => EmptyString
  | String c s' => String (lower_char c) (lower s')
  end.

(** Truth value of a [str]: empty is false. *)
Definition truthy (s : string) : bool :=
  match s with EmptyString => false | _ => true end.

(** [x in xs] for a list of [str]. *)
Definition str_in (x : string) (xs : list string) : bool :=
  existsb (String.eqb x) xs.

(** [a > b] on [str]: lexicographic on code points. *)
Definition str_gt (a b : string) : bool := String.ltb b a.

(** [len(l)]. *)
Definition len {A} (l : list A) : Z := Z.of_nat (length l).

(** [l[start:]], with Python's treatment of a negative or too large
    [start]. *)
Definition slice_from {A} (start : Z) (l : list A) : list A :=
  let n := len l in
  let lo := if start <? 0 then Z.max (n + start) 0 else Z.min start n in
  drop (Z.to_nat lo) l.

(** [str(n)] and [f"{n}"] for an [int]. *)
Definition str_of_int (n : Z) : string :=
  NilZero.string_of_int (Z.to_int n).

(** [float(n)] for an [int], rounded to nearest-even. *)
Definition float_of_int (n : Z) : float :=
  SF2Prim (binary_normalize prec emax n 0 false).

(** An [int] as an unrounded binary number [n * 2^0]. *)
Definition exact_int (n : Z) : spec_float :=
  match n with
  | Z0 => S754_zero false
  | Zpos p => S754_finite false p 0
  | Zneg p => S754_finite true p 0
  end.

(** [a / b] on two [int]s, [b] not zero: the exact quotient, rounded once
    to nearest-even. *)
Definition truediv_int (a b : Z) : float :=
  SF2Prim (SFdiv prec emax (exact_int a) (exact_int b)).

(** [sum(l)] on floats: the accumulator starts at 0 and the items are
    added from left to right in binary64 (CPython 3.12 and later carry a
    compensation term besides, which is zero when no addition rounds). *)
Definition sum (l : list float) : float :=
  fold_left PrimFloat.add l 0%float.

(** [min] and [max] of the non-empty list [x :: rest]: the scan keeps the
    first item and replaces it by a later one only when that one compares
    strictly below (above) it. *)
Definition min (x : float) (rest : list float) : float :=
  fold_left (fun best y => if (y <? best)%float then y else best) rest x.

Definition max (x : float) (rest : list float) : float :=
  fold_left (fun best y => if (best <? y)%float then y else best) rest x.

(** The integer nearest to [p / 2^k], ties to even. *)
Definition round_half_even_shift (p : Z) (k : Z) : Z :=
  let den := 2 ^ k in
  let q := p / den in
  let r := p mod den in
  match 2 * r ?= den with
  | Lt => q
  | Gt => q + 1
  | Eq => if Z.even q then q else q + 1
  end.

(** [round(x, 2)] on a float. CPython prints the exact binary value of [x]
    with two digits after the point, correctly rounded (ties to even), and
    reads the decimal back as the nearest float; NaN, the infinities and
    the zeros are returned as they are. *)
Definition round2 (x : float) : float :=
  match Prim2SF x with
  | S754_finite s m e =>
      if 0 <=? e then x
      else
        let n := round_half_even_shift (Z.pos m * 100) (- e) in
        match n with
        | Z.pos n' =>
            SF2Prim (SFdiv prec emax (S754_finite s n' 0)
                                     (S754_finite false 100 0))
        | _ => SF2Prim (S754_zero s)
        end
  | _ => x
  end.

End Py.

(** ** The pydantic models ([Models/server.py], [Models/api.py]) *)

Record SensorData := {
  sd_device_id : string;
  sd_timestamp : Z;
  sd_distance_cm : float;
  sd_distance_inch : float;
  sd_temperature_c : float;
  sd_humidity_percent : float;
  sd_latitude : float;
  sd_longitude : float;
  sd_gps_valid : bool;
  sd_gps_raw : string;
  sd_gps_status : string
}.

Record SensorDataResponse := {
  device_id : string;
  timestamp : Z;
  distance_cm : float;
  distance_inch : float;
  temperature_c : float;
  humidity_percent : float;
  latitude : float;
  longitude : float;
  gps_valid : bool;
  gps_raw : string;
  gps_status : string;
  received_at : string
}.

(** [SensorDataResponse( **data.dict(), received_at=now)]. *)
Definition with_received_at (data : SensorData) (now : string)
  : SensorDataResponse :=
  {| device_id := sd_device_id data;
     timestamp := sd_timestamp data;
     distance_cm := sd_distance_cm data;
     distance_inch := sd_distance_inch data;
     temperature_c := sd_temperature_c data;
     humidity_percent := sd_humidity_percent data;
     latitude := sd_latitude data;
     longitude := sd_longitude data;
     gps_valid := sd_gps_valid data;
     gps_raw := sd_gps_raw data;
     gps_status := sd_gps_status data;
     received_at := now |}.

(** [ApiResponse]; the type of the [data] dictionary depends on the
    handler. *)
Record ApiResponse (D : Type) := {
  status : string;
  message : string;
  data : D
}.
Arguments status {D} _.
Arguments message {D} _.
Arguments data {D} _.

(** [fastapi.HTTPException(status_code, detail)]. *)
Record HTTPException := {
  status_code : Z;
  detail : string
}.

(** ** Server state and the handler monad *)

Definition MAX_RECORDS : Z := 1000.

(** What a handler did to [DATA_FILE], in order. *)
Inductive FileEvent :=
| Written (snapshot : list SensorDataResponse)
| WriteFailed (snapshot : list SensorDataResponse)
| Removed.

Record Server := {
  sensor_data : list SensorDataResponse;
  (** contents of [DATA_FILE]; [None] when the file does not exist *)
  data_file : option (list SensorDataResponse);
  (** the calls of [save_data] and [os.remove] so far, oldest first *)
  file_log : list FileEvent
}.

Definition M (A : Type) : Type := Server -> (HTTPException + A) * Server.

Definition run {A} (m : M A) (srv : Server) : (HTTPException + A) * Server :=
  m srv.

#[export] Instance M_ret : MRet M := fun A (a : A) srv => (inr a, srv).
#[export] Instance M_bind : MBind M := fun A B (f : A -> M B) (m : M A) srv =>
  match m srv with
  | (inl e, srv') => (inl e, srv')
  | (inr a, srv') => f a srv'
  end.

Definition raise {A} (e : HTTPException) : M A := fun srv => (inl e, srv).

Definition read_sensor_data : M (list SensorDataResponse) :=
  fun srv => (inr (sensor_data srv), srv).

Definition assign_sensor_data (l : list SensorDataResponse) : M unit :=
  fun srv => (inr tt, {| sensor_data := l;
                         data_file := data_file srv;
                         file_log := file_log srv |}).

Definition when (b : bool) (m : M unit) : M unit :=
  if b then m else mret tt.

(** [save_data()]: dumps the whole list to [DATA_FILE]. An exception while
    writing is caught and logged inside [save_data]; [write_ok] says whether
    the write went through. A failed write is recorded and leaves the
    modelled file contents as they were. *)
Definition save_data (write_ok : bool) : M unit :=
  fun srv =>
    (inr tt,
     if write_ok
     then {| sensor_data := sensor_data srv;
             data_file := Some (sensor_data srv);
             file_log := file_log srv ++ [Written (sensor_data srv)] |}
     else {| sensor_data := sensor_data srv;
             data_file := data_file srv;
             file_log := file_log srv ++ [WriteFailed (sensor_data srv)] |}).

(** [if os.path.exists(DATA_FILE): os.remove(DATA_FILE)]. *)
Definition remove_data_file : M unit :=
  fun srv =>
    (inr tt,
     match data_file srv with
     | Some _ => {| sensor_data := sensor_data srv;
                    data_file := None;
                    file_log := file_log srv ++ [Removed] |}
     | None => srv
     end).

(** ** Device identifiers *)

Definition INVALID_IDS : list string := ["null"; "none"; "undefined"].

(** The test
    [not device_id or device_id.lower() in ['null', 'none', 'undefined']]
    on an already stripped identifier. *)
Definition rejected (device_id : string) : bool :=
  negb (Py.truthy device_id) || Py.str_in (Py.lower device_id) INVALID_IDS.

(** [data.device_id.strip() if data.device_id else ""]. *)
Definition normalized (raw : string) : string :=
  if Py.truthy raw then Py.strip raw else "".

(** ** POST /data *)

Record Stored := {
  records_stored : Z;
  stored_device_id : string
}.

Definition InvalidInput : HTTPException :=
  {| status_code := 400;
     detail := "Device ID is required and cannot be empty" |}.

Definition receive_sensor_data (now : string) (write_ok : bool)
    (data : SensorData) : M (ApiResponse Stored) :=
  let device_id := normalized (sd_device_id data) in
  if rejected device_id then raise InvalidInput
  else
    let response_data := with_received_at data now in
    l ← read_sensor_data;
    assign_sensor_data (l ++ [response_data]);;
    l ← read_sensor_data;
    when (MAX_RECORDS <? Py.len l)
         (assign_sensor_data (Py.slice_from (- MAX_RECORDS) l));;
    l ← read_sensor_data;
    when (Py.len l mod 10 =? 0) (save_data write_ok);;
    l ← read_sensor_data;
    mret {| status := "success";
            message := "Data received and stored successfully";
            data := {| records_stored := Py.len l;
                       stored_device_id := device_id |} |}.

(** ** GET /data *)

Record AllData := {
  all_total_records : Z;
  oldest_record : option string;
  newest_record : option string;
  all_data : list SensorDataResponse
}.

Definition get_all_data : M AllData :=
  l ← read_sensor_data;
  mret {| all_total_records := Py.len l;
          oldest_record := received_at <$> head l;
          newest_record := received_at <$> last l;
          all_data := l |}.

(** ** GET /data/latest *)

Inductive Latest :=
| latest_per_device (total_devices : Z)
                    (devices : gmap string SensorDataResponse)
| single_latest (item : SensorDataResponse).

Definition NoSensorData : HTTPException :=
  {| status_code := 404; detail := "No sensor data available" |}.

Definition NoValidDevices : HTTPException :=
  {| status_code := 404; detail := "No valid device data available" |}.

(** One iteration of the loop over [sensor_data] that fills
    [device_latest]. *)
Definition latest_step (device_latest : gmap string SensorDataResponse)
    (item : SensorDataResponse) : gmap string SensorDataResponse :=
  let device_id := Py.strip (device_id item) in
  if rejected device_id then device_latest
  else
    match device_latest !! device_id with
    | None => <[device_id := item]> device_latest
    | Some current =>
        if Py.str_gt (received_at item) (received_at current)
        then <[device_id := item]> device_latest
        else device_latest
    end.

Definition get_latest_data (show_all_devices : bool) : M Latest :=
  l ← read_sensor_data;
  match l with
  | [] => raise NoSensorData
  | first :: _ =>
      if show_all_devices then
        let device_latest := fold_left latest_step l ∅ in
        if decide (device_latest = ∅) then raise NoValidDevices
        else mret (latest_per_device (Z.of_nat (size device_latest))
                                     device_latest)
      else mret (single_latest (List.last l first))
  end.

(** ** POST /data/cleanup *)

Record Cleanup := {
  initial_records : Z;
  remaining_records : Z;
  removed_records : Z
}.

(** The test of the cleanup loop: the record is kept when
    [device_id and device_id.lower() not in ['null', 'none', 'undefined']]. *)
Definition kept (item : SensorDataResponse) : bool :=
  let device_id := normalized (device_id item) in
  Py.truthy device_id && negb (Py.str_in (Py.lower device_id) INVALID_IDS).

Definition cleanup_invalid_data (write_ok : bool) : M (ApiResponse Cleanup) :=
  l ← read_sensor_data;
  let initial_count := Py.len l in
  let cleaned_data := List.filter kept l in
  let removed_count := initial_count - Py.len cleaned_data in
  assign_sensor_data cleaned_data;;
  save_data write_ok;;
  l ← read_sensor_data;
  mret {| status := "success";
          message := "Cleanup completed: " ++ Py.str_of_int removed_count
                     ++ " invalid records removed";
          data := {| initial_records := initial_count;
                     remaining_records := Py.len l;
                     removed_records := removed_count |} |}.

(** ** GET /data/device/{device_id} *)

Record DeviceData := {
  dd_device_id : string;
  dd_total_records : Z;
  first_reading : string;
  last_reading : string;
  dd_data : list SensorDataResponse
}.

Definition NoDataForDevice (wanted : string) : HTTPException :=
  {| status_code := 404; detail := "No data found for device: " ++ wanted |}.

Definition get_data_by_device (wanted : string) : M DeviceData :=
  l ← read_sensor_data;
  let device_data :=
    List.filter (fun item => String.eqb (device_id item) wanted) l in
  match device_data with
  | [] => raise (NoDataForDevice wanted)
  | first :: _ =>
      mret {| dd_device_id := wanted;
              dd_total_records := Py.len device_data;
              first_reading := received_at first;
              last_reading := received_at (List.last device_data first);
              dd_data := device_data |}
  end.

(** ** GET /data/distance/{min_dist}/{max_dist} and
       GET /data/temperature/{min_temp}/{max_temp}

    The [filter_applied] caption of the two answers (a formatted string)
    is left out. *)

Record Filtered := {
  total_matching : Z;
  percentage_of_total : float;
  filtered_data : list SensorDataResponse
}.

Definition percentage (matching all : list SensorDataResponse) : float :=
  match all with
  | [] => 0%float
  | _ => Py.round2 (Py.truediv_int (Py.len matching) (Py.len all) * 100)%float
  end.

Definition InvalidDistanceRange : HTTPException :=
  {| status_code := 400; detail := "Invalid distance range parameters" |}.

Definition InvalidTemperatureRange : HTTPException :=
  {| status_code := 400;
     detail := "Maximum temperature must be greater than minimum" |}.

Definition get_data_by_distance (min_dist max_dist : float) : M Filtered :=
  if (min_dist <? 0)%float || (max_dist <? min_dist)%float
  then raise InvalidDistanceRange
  else
    l ← read_sensor_data;
    let filtered :=
      List.filter (fun item => (min_dist <=? distance_cm item)%float
                               && (distance_cm item <=? max_dist)%float) l in
    mret {| total_matching := Py.len filtered;
            percentage_of_total := percentage filtered l;
            filtered_data := filtered |}.

Definition get_data_by_temperature (min_temp max_temp : float) : M Filtered :=
  if (max_temp <? min_temp)%float
  then raise InvalidTemperatureRange
  else
    l ← read_sensor_data;
    let filtered :=
      List.filter (fun item => (min_temp <=? temperature_c item)%float
                               && (temperature_c item <=? max_temp)%float
                               && (-100 <? temperature_c item)%float) l in
    mret {| total_matching := Py.len filtered;
            percentage_of_total := percentage filtered l;
            filtered_data := filtered |}.

(** ** GET /stats *)

(** The part of Python's [datetime] module that [get_statistics] calls.
    [fromisoformat] is [None] where [datetime.fromisoformat] raises
    [ValueError]; [total_seconds a b] is [(a - b).total_seconds()], [None]
    where the subtraction raises (an aware and a naive operand). *)
Class Datetime := {
  datetime : Type;
  fromisoformat : string -> option datetime;
  total_seconds : datetime -> datetime -> option float
}.

Record MetricStats := {
  st_min : float;
  st_max : float;
  st_average : float;
  valid_readings : Z
}.

Record Summary := {
  total_records : Z;
  data_timespan_hours : float;
  latest_reading : string;
  gps_fix_rate_percent : float;
  unique_devices : Z
}.

Record Statistics := {
  summary : Summary;
  temperature : option MetricStats;
  humidity : option MetricStats;
  distance : option MetricStats
}.

Definition NoDataForAnalysis : HTTPException :=
  {| status_code := 404; detail := "No data available for analysis" |}.

(** The answer of the framework to an exception that no handler
    catches. *)
Definition InternalServerError : HTTPException :=
  {| status_code := 500; detail := "Internal Server Error" |}.

Definition valid_temp_data (l : list SensorDataResponse) : list float :=
  map temperature_c
      (List.filter (fun item => (-100 <? temperature_c item)%float) l).

Definition valid_humidity_data (l : list SensorDataResponse) : list float :=
  map humidity_percent
      (List.filter (fun item => (-100 <? humidity_percent item)%float) l).

Definition distance_data (l : list SensorDataResponse) : list float :=
  map distance_cm
      (List.filter (fun item => (0 <? distance_cm item)%float) l).

(** The dictionary built under [if valid_temp_data:] (and its two
    siblings); [None] when the key is not added to [stats]. *)
Definition metric_stats (valid : list float) : option MetricStats :=
  match valid with
  | [] => None
  | x :: rest =>
      Some {| st_min := Py.round2 (Py.min x rest);
              st_max := Py.round2 (Py.max x rest);
              st_average :=
                Py.round2 (Py.sum valid / Py.float_of_int (Py.len valid))%float;
              valid_readings := Py.len valid |}
  end.

(** [len(set(item.device_id for item in sensor_data))]. *)
Definition count_unique_devices (l : list SensorDataResponse) : Z :=
  Z.of_nat (size (list_to_set (map device_id l) : gset string)).

Definition gps_fix_rate (l : list SensorDataResponse) : float :=
  Py.round2
    (Py.truediv_int (Py.len (List.filter gps_valid l)) (Py.len l) * 100)%float.

Section Stats.
Context `{Datetime}.

(** The [data_timespan_hours] entry; [None] when evaluating it raises. *)
Definition timespan_hours (first newest : SensorDataResponse)
    (l : list SensorDataResponse) : option float :=
  if 1 <? Py.len l then
    b ← fromisoformat (received_at newest);
    a ← fromisoformat (received_at first);
    s ← total_seconds b a;
    Some (s / 3600)%float
  else Some 0%float.

Definition get_statistics : M Statistics :=
  l ← read_sensor_data;
  match l with
  | [] => raise NoDataForAnalysis
  | first :: _ =>
      let newest := List.last l first in
      match timespan_hours first newest l with
      | None => raise InternalServerError
      | Some hours =>
          mret {| summary :=
                    {| total_records := Py.len l;
                       data_timespan_hours := hours;
                       latest_reading := received_at newest;
                       gps_fix_rate_percent := gps_fix_rate l;
                       unique_devices := count_unique_devices l |};
                  temperature := metric_stats (valid_temp_data l);
                  humidity := metric_stats (valid_humidity_data l);
                  distance := metric_stats (distance_data l) |}
      end
  end.

End Stats.

(** ** DELETE /data *)

Record Cleared := {
  deleted_records : Z;
  file_deleted : bool
}.

Definition clear_all_data : M (ApiResponse Cleared) :=
  l ← read_sensor_data;
  let deleted_count := Py.len l in
  assign_sensor_data [];;
  remove_data_file;;
  mret {| status := "success";
          message := "Successfully cleared all data ("
                     ++ Py.str_of_int deleted_count ++ " records deleted)";
          data := {| deleted_records := deleted_count;
                     file_deleted := true |} |}.

(** ** Sequences of accepted readings *)

(** One POST /data request: the clock value when it is stamped, whether a
    write of the file would succeed, and the payload. *)
Record Arrival := {
  arrived_at : string;
  disk_ok : bool;
  payload : SensorData
}.

Definition post (a : Arrival) : M (ApiResponse Stored) :=
  receive_sensor_data (arrived_at a) (disk_ok a) (payload a).

Definition stamped (a : Arrival) : SensorDataResponse :=
  with_received_at (payload a) (arrived_at a).

(** [ingests srv arrivals srv']: every request of [arrivals], handled in
    order from [srv], is answered with success, and the server ends in
    [srv']. *)
Inductive ingests : Server -> list Arrival -> Server -> Prop :=
| ingests_nil srv : ingests srv [] srv
| ingests_cons srv a reply srv1 rest srv2 :
    run (post a) srv = (inr reply, srv1) ->
    ingests srv1 rest srv2 ->
    ingests srv (a :: rest) srv2.

(** The [n] last items of a list, in their order. *)
Definition most_recent {A} (n : nat) (l : list A) : list A :=
  drop (length l - n) l.

(** The classes of error of the specification, read off the status code. *)
Definition is_not_found (e : HTTPException) : Prop := status_code e = 404.
Definition is_bad_request (e : HTTPException) : Prop := status_code e = 400.

(** * Vocabulary of the properties *)

(** ** Identifiers, requests and stores *)

(** The specification's notion of an invalid identifier. *)
Definition invalid_id (raw : string) : Prop :=
  Py.strip raw = "" \/ Py.lower (Py.strip raw) ∈ INVALID_IDS.

(** The list after the append and the truncation of the rolling buffer. *)
Definition rolled (l : list SensorDataResponse) (x : SensorDataResponse)
  : list SensorDataResponse :=
  let l1 := l ++ [x] in
  if MAX_RECORDS <? Py.len l1 then Py.slice_from (- MAX_RECORDS) l1 else l1.

Definition save_event (write_ok : bool) (l : list SensorDataResponse)
  : FileEvent :=
  if write_ok then Written l else WriteFailed l.

Definition same_device (wanted : string) (item : SensorDataResponse) : bool :=
  String.eqb (device_id item) wanted.

Definition in_distance_range (lo hi : float) (item : SensorDataResponse) : bool :=
  (lo <=? distance_cm item)%float && (distance_cm item <=? hi)%float.

Definition in_temperature_range (lo hi : float) (item : SensorDataResponse)
  : bool :=
  (lo <=? temperature_c item)%float && (temperature_c item <=? hi)%float
  && (-100 <? temperature_c item)%float.

(** ** The latest reading of a device *)

(** [latest_for l k r]: [r] is the reading of [l] that the specification
    selects for the stripped identifier [k]: it carries [k], no reading
    carrying [k] has a greater [received_at], and every reading carrying
    [k] that comes before [r] in [l] has a strictly smaller one (on equal
    [received_at] the first seen stays). *)
Definition latest_for (l : list SensorDataResponse) (k : string)
    (r : SensorDataResponse) : Prop :=
  exists i : nat,
    l !! i = Some r /\ Py.strip (device_id r) = k
    /\ forall (j : nat) x,
         l !! j = Some x -> Py.strip (device_id x) = k ->
         String.leb (received_at x) (received_at r) = true
         /\ ((j < i)%nat ->
             String.ltb (received_at x) (received_at r) = true).

Definition latest_inv (l : list SensorDataResponse)
    (m : gmap string SensorDataResponse) : Prop :=
  forall k,
    match m !! k with
    | Some r => rejected k = false /\ latest_for l k r
    | None => rejected k = true
              \/ forall x, x ∈ l -> Py.strip (device_id x) <> k
    end.

(** ** Sub-reports of the statistics *)

(** A float that is not NaN. *)
Definition number (x : float) : Prop := Prim2SF x <> S754_nan.

(** What a sub-report of [stats] says about the list [valid] of readings
    it was computed from. *)
Definition reports (o : option MetricStats) (valid : list float) : Prop :=
  (o = None <-> valid = [])
  /\ forall ms, o = Some ms ->
       valid_readings ms = Py.len valid
       /\ (exists lo, lo ∈ valid /\ st_min ms = Py.round2 lo
                      /\ forall v, v ∈ valid -> (lo <=? v)%float = true)
       /\ (exists hi, hi ∈ valid /\ st_max ms = Py.round2 hi
                      /\ forall v, v ∈ valid -> (v <=? hi)%float = true)
       /\ st_average ms
          = Py.round2 (Py.sum valid / Py.float_of_int (Py.len valid))%float.

(** The timestamps that [get_statistics] parses can be parsed and
    subtracted, as those written by POST /data can. *)
Definition timestamps_readable `{Datetime} (l : list SensorDataResponse)
  : Prop :=
  match l with
  | [] => True
  | first :: _ => is_Some (timespan_hours first (List.last l first) l)
  end.

(** ** An instance of [Datetime]

    The timestamps that [datetime.now().isoformat()] writes:
    [YYYY-MM-DDTHH:MM:SS.ffffff], or [YYYY-MM-DDTHH:MM:SS] when the
    microsecond is zero. A parsed timestamp is its number of microseconds
    since 1970-01-01T00:00:00; any other string is refused. *)

Module Iso.

Definition digit (c : ascii) : option Z :=
  let n := Z.of_N (N_of_ascii c) in
  if (48 <=? n) && (n <=? 57) then Some (n - 48) else None.

(** The value of a string of decimal digits. *)
Fixpoint decimal (acc : Z) (s : string) : option Z :=
  match s with
  | EmptyString => Some acc
  | String c s' => d ← digit c; decimal (10 * acc + d) s'
  end.

(** [width] digits of [s] from position [pos]. *)
Definition field (pos width : nat) (s : string) : option Z :=
  let part := String.substring pos width s in
  if (String.length part =? width)%nat then decimal 0 part else None.

Definition is_leap (y : Z) : bool :=
  (y mod 4 =? 0) && (negb (y mod 100 =? 0) || (y mod 400 =? 0)).

Definition days_in_month (y m : Z) : Z :=
  if m =? 2 then (if is_leap y then 29 else 28)
  else if (m =? 4) || (m =? 6) || (m =? 9) || (m =? 11) then 30 else 31.

(** Days from 1970-01-01 to the given date of the proleptic Gregorian
    calendar. *)
Definition days_from_civil (y m d : Z) : Z :=
  let y' := if m <=? 2 then y - 1 else y in
  let era := y' / 400 in
  let yoe := y' - era * 400 in
  let doy := (153 * (m + (if 2 <? m then -3 else 9)) + 2) / 5 + d - 1 in
  let doe := yoe * 365 + yoe / 4 - yoe / 100 + doy in
  era * 146097 + doe - 719468.

(** Microseconds since 1970-01-01T00:00:00 of a timestamp written
    [YYYY-MM-DDTHH:MM:SS] or [YYYY-MM-DDTHH:MM:SS.ffffff]. *)
Definition parse (s : string) : option Z :=
  y ← field 0 4 s; mo ← field 5 2 s; d ← field 8 2 s;
  h ← field 11 2 s; mi ← field 14 2 s; sec ← field 17 2 s;
  us ← (if (String.length s =? 19)%nat then Some 0
        else if (String.length s =? 26)%nat && String.eqb (String.substring 19 1 s) "."
             then field 20 6 s else None);
  if String.eqb (String.substring 4 1 s) "-"
     && String.eqb (String.substring 7 1 s) "-"
     && String.eqb (String.substring 10 1 s) "T"
     && String.eqb (String.substring 13 1 s) ":"
     && String.eqb (String.substring 16 1 s) ":"
     && (1 <=? y) && (1 <=? mo) && (mo <=? 12)
     && (1 <=? d) && (d <=? days_in_month y mo)
     && (h <? 24) && (mi <? 60) && (sec <? 60)
  then Some ((((days_from_civil y mo d * 24 + h) * 60 + mi) * 60 + sec)
             * 1000000 + us)
  else None.

End Iso.

Definition isoformat_datetime : Datetime := {|
  datetime := Z;
  fromisoformat := Iso.parse;
  total_seconds := fun a b => Some (Py.truediv_int (a - b) 1000000)
|}.

(** ** Concrete readings, requests and servers *)

Definition reading_from (d : string) : SensorData :=
  {| sd_device_id := d; sd_timestamp := 1700000000;
     sd_distance_cm := 120.5; sd_distance_inch := 47.5;
     sd_temperature_c := 21.5; sd_humidity_percent := 40;
     sd_latitude := 0; sd_longitude := 0;
     sd_gps_valid := true; sd_gps_raw := ""; sd_gps_status := "fix" |}.

Definition stored (d : string) (temp : float) (at_time : string)
  : SensorDataResponse :=
  {| device_id := d; timestamp := 1700000000;
     distance_cm := 120.5; distance_inch := 47.5;
     temperature_c := temp; humidity_percent := 40;
     latitude := 0; longitude := 0;
     gps_valid := true; gps_raw := ""; gps_status := "fix";
     received_at := at_time |}.

(** The server after handling the requests of [arrivals] in order. *)
Definition after (arrivals : list Arrival) (srv : Server) : Server :=
  fold_left (fun s a => (run (post a) s).2) arrivals srv.

Definition accepted (a : Arrival) : bool :=
  negb (rejected (normalized (sd_device_id (payload a)))).

(** What a handler answered, seen through [f]. *)
Definition answered {A B} (f : A -> B) (outcome : (HTTPException + A) * Server)
  : HTTPException + B :=
  match outcome.1 with
  | inl e => inl e
  | inr a => inr (f a)
  end.

Definition server_with (l : list SensorDataResponse) : Server :=
  {| sensor_data := l; data_file := None; file_log := [] |}.

Definition arrival (d at_time : string) : Arrival :=
  {| arrived_at := at_time; disk_ok := true; payload := reading_from d |}.

Definition nearly_full : Server :=
  server_with (replicate 999 (stored "A" 20 "2024-05-17T10:00:00")).

Definition two_arrivals : list Arrival :=
  [arrival "A" "2024-05-17T10:00:01"; arrival " B " "2024-05-17T10:00:02"].

Definition nine_stored : Server :=
  server_with (replicate 9 (stored "A" 20 "2024-05-17T10:00:00")).

Definition three_temperatures : Server :=
  server_with [stored "A" (-999) "2024-05-17T10:23:45.123456";
               stored "A" 20 "2024-05-17T11:23:45";
               stored "B" 30 "2024-05-17T12:53:45.623456"].

Definition three_identifiers : Server :=
  server_with [stored "null" 20 "2024-05-17T10:23:45.123456";
               stored " A" 20 "2024-05-17T11:23:45";
               stored "A" 20 "2024-05-17T12:53:45.623456"].

(** ** Startup and shutdown *)






(** ** GET /data/file and GET /data/file/info

    The size and the modification time of the file are left out of
    [FileInfo]. *)

Definition DATA_FILE : string := "sensor_data.json".

Record FileResponse := {
  path : string;
  filename : string;
  media_type : string
}.

Definition DataFileNotFound : HTTPException :=
  {| status_code := 404; detail := "Data file not found" |}.

(** The file as the handlers find it: [None] when
    [os.path.exists(DATA_FILE)] is false. *)
Definition read_data_file : M (option (list SensorDataResponse)) :=
  fun srv => (inr (data_file srv), srv).

(** [stamp] is [datetime.now().strftime('%Y%m%d_%H%M%S')]. *)
Definition download_data_file (stamp : string) : M FileResponse :=
  file ← read_data_file;
  match file with
  | None => raise DataFileNotFound
  | Some _ =>
      mret {| path := DATA_FILE;
              filename := "esp32_sensor_data_" ++ stamp ++ ".json";
              media_type := "application/json" |}
  end.

Record FileInfo := {
  file_path : string;
  records_in_file : Z;
  records_in_memory : Z;
  file_structure_valid : bool
}.

(** [read_error] is [Some (str(e))] when reading the file raises [e].
    Every record that [save_data] writes has the three keys that
    [file_structure_valid] looks for in the first record. *)
Definition get_file_info (read_error : option string) : M FileInfo :=
  file ← read_data_file;
  match file with
  | None => raise DataFileNotFound
  | Some file_data =>
      match read_error with
      | Some e =>
          raise {| status_code := 500;
                   detail := "Error reading file info: " ++ e |}
      | None =>
          l ← read_sensor_data;
          mret {| file_path := DATA_FILE;
                  records_in_file := Py.len file_data;
                  records_in_memory := Py.len l;
                  file_structure_valid :=
                    match file_data with [] => false | _ => true end |}
      end
  end.

(** ** Vocabulary of the further properties *)

(** The readings of the file, none when there is no file. *)
Definition persisted (srv : Server) : list SensorDataResponse :=
  default [] (data_file srv).

(** The list in memory is the list of the file followed by readings that
    no save has written yet, and these are no more than the last digit
    of the length of the list. *)
Definition unsaved_tail (srv : Server) (tail : list SensorDataResponse)
  : Prop :=
  sensor_data srv = persisted srv ++ tail
  /\ Py.len tail <= Py.len (sensor_data srv) mod 10.

(** [x] is stamped no later than [y]; [x] is stamped before [y]. *)
Definition not_after (x y : SensorDataResponse) : Prop :=
  String.leb (received_at x) (received_at y) = true.

Definition before (x y : SensorDataResponse) : Prop :=
  String.ltb (received_at x) (received_at y) = true.

(** [received_at] never decreases along the list. *)
Definition chronological (l : list SensorDataResponse) : Prop :=
  StronglySorted not_after l.

(** [received_at] increases along the list. *)
Definition strictly_chronological (l : list SensorDataResponse) : Prop :=
  StronglySorted before l.

(** * Properties *)

(** ** Device identifiers *)

Lemma strip_empty : Py.strip "" = "".
Proof. reflexivity. Qed.

Lemma normalized_strip raw : normalized raw = Py.strip raw.
Proof. destruct raw; reflexivity. Qed.

Lemma truthy_false s : Py.truthy s = false <-> s = "".
Proof. destruct s; simpl; split; congruence. Qed.

Lemma str_in_spec x xs : Py.str_in x xs = true <-> x ∈ xs.
Proof.
  unfold Py.str_in. rewrite existsb_exists, list_elem_of_In. split.
  - intros (y & Hy & Heq). apply String.eqb_eq in Heq. now subst.
  - intros Hx. exists x. split; [done | apply String.eqb_refl].
Qed.

Lemma rejected_spec raw : rejected (normalized raw) = true <-> invalid_id raw.
Proof.
  rewrite normalized_strip. unfold rejected, invalid_id.
  rewrite orb_true_iff, negb_true_iff, truthy_false, str_in_spec. tauto.
Qed.

Lemma rejected_strip_spec raw : rejected (Py.strip raw) = true <-> invalid_id raw.
Proof. rewrite <- normalized_strip. apply rejected_spec. Qed.

Lemma kept_rejected item : kept item = negb (rejected (normalized (device_id item))).
Proof. unfold kept, rejected. now rewrite negb_orb, negb_involutive. Qed.

Lemma kept_spec item : kept item = true <-> ~ invalid_id (device_id item).
Proof.
  rewrite kept_rejected, negb_true_iff, <- rejected_spec.
  destruct (rejected _); split; congruence.
Qed.

(** ** The handler monad *)

(** Unfolds the monad operations of a handler applied to a server. *)
Ltac run_handler :=
  cbv [run mbind mret M_bind M_ret raise when read_sensor_data
       assign_sensor_data save_data remove_data_file];
  cbn [sensor_data data_file file_log fst snd].

(** ** POST /data: one request *)

Lemma rolled_most_recent l x :
  rolled l x = most_recent (Z.to_nat MAX_RECORDS) (l ++ [x]).
Proof.
  unfold rolled, most_recent, Py.slice_from, Py.len, MAX_RECORDS.
  set (l1 := l ++ [x]).
  destruct (Z.ltb_spec 1000 (Z.of_nat (length l1))) as [Hlt | Hge].
  - replace (_ <? 0) with true by (symmetry; apply Z.ltb_lt; lia).
    f_equal. lia.
  - replace (length l1 - Z.to_nat 1000)%nat with 0%nat by lia. reflexivity.
Qed.

Lemma receive_rejected now ok reading srv :
  rejected (normalized (sd_device_id reading)) = true ->
  run (receive_sensor_data now ok reading) srv = (inl InvalidInput, srv).
Proof. intros Hrej. unfold receive_sensor_data. now rewrite Hrej. Qed.

Lemma receive_accepted now ok reading srv :
  rejected (normalized (sd_device_id reading)) = false ->
  let l := rolled (sensor_data srv) (with_received_at reading now) in
  let saving := Py.len l mod 10 =? 0 in
  run (receive_sensor_data now ok reading) srv =
    (inr {| status := "success";
            message := "Data received and stored successfully";
            data := {| records_stored := Py.len l;
                       stored_device_id := normalized (sd_device_id reading) |} |},
     {| sensor_data := l;
        data_file := if saving && ok then Some l else data_file srv;
        file_log := file_log srv ++ (if saving then [save_event ok l] else []) |}).
Proof.
  intros Hacc l saving. unfold receive_sensor_data. rewrite Hacc.
  run_handler. subst saving l. unfold rolled, save_event.
  destruct (MAX_RECORDS <? _); cbn [sensor_data data_file file_log];
    destruct (_ =? 0); destruct ok; cbn; rewrite ?app_nil_r; reflexivity.
Qed.

Lemma receive_outcome now ok reading srv :
  (exists reply srv', run (receive_sensor_data now ok reading) srv = (inr reply, srv')
                      /\ ~ invalid_id (sd_device_id reading))
  \/ (run (receive_sensor_data now ok reading) srv = (inl InvalidInput, srv)
      /\ invalid_id (sd_device_id reading)).
Proof.
  destruct (rejected (normalized (sd_device_id reading))) eqn:Hrej.
  - right. split; [now apply receive_rejected | now apply rejected_spec].
  - left. eexists _, _. split; [now apply receive_accepted |].
    rewrite <- rejected_spec. congruence.
Qed.

(** C5. POST /data fails, with the 400 "Device ID is required and cannot be
    empty" ([InvalidInput]), exactly when the stripped device_id is empty or
    is 'null', 'none' or 'undefined' in any letter case; '', 'null', 'NULL'
    and '  ' are such identifiers; and a failed request leaves the server,
    hence the number of stored readings, as it was. *)
Theorem C5_invalid_input_exactly now ok reading srv :
  let outcome := run (receive_sensor_data now ok reading) srv in
  (outcome = (inl InvalidInput, srv)
     <-> Py.strip (sd_device_id reading) = ""
         \/ Py.lower (Py.strip (sd_device_id reading)) ∈ ["null"; "none"; "undefined"])
  /\ ((exists e, outcome.1 = inl e)
        <-> Py.strip (sd_device_id reading) = ""
            \/ Py.lower (Py.strip (sd_device_id reading)) ∈ ["null"; "none"; "undefined"])
  /\ (forall e srv', outcome = (inl e, srv') ->
        e = InvalidInput /\ is_bad_request e /\ srv' = srv
        /\ Py.len (sensor_data srv') = Py.len (sensor_data srv))
  /\ Forall (fun d => forall now' ok' srv0,
               run (receive_sensor_data now' ok' (reading_from d)) srv0
               = (inl InvalidInput, srv0))
            [""; "null"; "NULL"; "  "].
Proof.
  intros outcome. subst outcome.
  change (Py.strip (sd_device_id reading) = ""
          \/ Py.lower (Py.strip (sd_device_id reading)) ∈ ["null"; "none"; "undefined"])
    with (invalid_id (sd_device_id reading)).
  destruct (receive_outcome now ok reading srv)
    as [(reply & srv' & Hrun & Hvalid) | [Hrun Hinvalid]]; rewrite Hrun.
  - split; [| split; [| split]].
    + split; [discriminate | intros; contradiction].
    + split; [intros [e He]; discriminate | intros; contradiction].
    + intros e srv0; discriminate.
    + repeat constructor.
  - split; [| split; [| split]].
    + tauto.
    + split; [tauto | now exists InvalidInput].
    + intros e srv0 [= <- <-]. repeat split; reflexivity.
    + repeat constructor.
Qed.

(** ** The rolling buffer *)

Section MostRecent.
Context {A : Type}.
Implicit Types l k : list A.

Lemma most_recent_length n l :
  length (most_recent n l) = Nat.min n (length l).
Proof. unfold most_recent. rewrite length_drop. lia. Qed.

Lemma most_recent_suffix n l : most_recent n l `suffix_of` l.
Proof. apply suffix_drop. Qed.

Lemma most_recent_short n l : (length l <= n)%nat -> most_recent n l = l.
Proof.
  intros Hle. unfold most_recent.
  now replace (length l - n)%nat with 0%nat by lia.
Qed.

(** Truncating early does not change what a later truncation keeps. *)
Lemma most_recent_app n l k :
  most_recent n (most_recent n l ++ k) = most_recent n (l ++ k).
Proof.
  destruct (decide (length l <= n)%nat) as [Hle | Hgt].
  - now rewrite (most_recent_short n l).
  - unfold most_recent at 1 3.
    rewrite !length_app, most_recent_length.
    unfold most_recent.
    replace (Nat.min n (length l) + length k - n)%nat with (length k) by lia.
    rewrite <- (drop_app_le l k (length l - n)) by lia.
    rewrite drop_drop. f_equal. lia.
Qed.

(** Once at least [n] items were appended, none of the older ones is left. *)
Lemma most_recent_app_long n l k :
  (n <= length k)%nat -> most_recent n (l ++ k) = most_recent n k.
Proof.
  intros Hle. unfold most_recent. rewrite length_app.
  replace (length l + length k - n)%nat
    with (length l + (length k - n))%nat by lia.
  now rewrite drop_app_add.
Qed.

End MostRecent.

Lemma ingests_one srv a reply srv' :
  run (post a) srv = (inr reply, srv') ->
  sensor_data srv' = most_recent (Z.to_nat MAX_RECORDS) (sensor_data srv ++ [stamped a]).
Proof.
  unfold post. intros Hrun.
  destruct (rejected (normalized (sd_device_id (payload a)))) eqn:Hrej.
  - rewrite receive_rejected in Hrun by done. discriminate.
  - rewrite receive_accepted in Hrun by done.
    injection Hrun as _ <-. cbn [sensor_data]. apply rolled_most_recent.
Qed.

Lemma ingests_history srv arrivals srv' :
  ingests srv arrivals srv' -> arrivals <> [] ->
  sensor_data srv'
  = most_recent (Z.to_nat MAX_RECORDS) (sensor_data srv ++ map stamped arrivals).
Proof.
  induction 1 as [srv | srv a reply srv1 rest srv2 Hstep Hrest IH]; [done |].
  intros _. apply ingests_one in Hstep.
  destruct rest as [| b rest].
  - inversion Hrest; subst. exact Hstep.
  - rewrite IH by done. rewrite Hstep, most_recent_app.
    now rewrite <- app_assoc.
Qed.

Lemma ingests_split srv before later srv' :
  ingests srv (before ++ later) srv' ->
  exists mid, ingests srv before mid /\ ingests mid later srv'.
Proof.
  revert srv. induction before as [| a before IH]; intros srv Hrun.
  - exists srv. split; [constructor | exact Hrun].
  - inversion Hrun as [| ? ? reply srv1 ? ? Hstep Hrest]; subst.
    destruct (IH srv1 Hrest) as (mid & Hbefore & Hlater).
    exists mid. split; [econstructor; eassumption | exact Hlater].
Qed.

(** Every sequence of acceptable requests is handled with success. *)
Lemma ingests_total srv arrivals :
  Forall (fun a => ~ invalid_id (sd_device_id (payload a))) arrivals ->
  exists srv', ingests srv arrivals srv'.
Proof.
  intros Hall. revert srv.
  induction Hall as [| a rest Ha _ IH]; intros srv.
  - exists srv. constructor.
  - destruct (receive_outcome (arrived_at a) (disk_ok a) (payload a) srv)
      as [(reply & srv1 & Hrun & _) | [_ Hinv]]; [| contradiction].
    destruct (IH srv1) as [srv2 Hrest].
    exists srv2. econstructor; eassumption.
Qed.

(** C1. After any non-empty sequence of successful POST /data requests,
    started from any server state, the store is the last 1000 items of the
    old store followed by the accepted readings in arrival order: it holds
    at most MAX_RECORDS readings, at the end and after each request of the
    sequence; they are a suffix of that history (order kept, only the
    oldest dropped); and once MAX_RECORDS + k readings were inserted the
    store is exactly the MAX_RECORDS most recent of them. *)
Theorem C1_rolling_buffer srv arrivals srv' :
  ingests srv arrivals srv' -> arrivals <> [] ->
  let history := sensor_data srv ++ map stamped arrivals in
  sensor_data srv' = most_recent 1000 history
  /\ Py.len (sensor_data srv') <= MAX_RECORDS
  /\ sensor_data srv' `suffix_of` history
  /\ (forall before later, arrivals = before ++ later -> before <> [] ->
        exists mid,
          ingests srv before mid /\ ingests mid later srv'
          /\ Py.len (sensor_data mid) <= MAX_RECORDS)
  /\ (forall k : nat, length arrivals = (1000 + k)%nat ->
        sensor_data srv' = most_recent 1000 (map stamped arrivals)
        /\ Py.len (sensor_data srv') = MAX_RECORDS
        /\ sensor_data srv' = drop k (map stamped arrivals)).
Proof.
  intros Hrun Hne history.
  pose proof (ingests_history _ _ _ Hrun Hne) as Hdata.
  change (Z.to_nat MAX_RECORDS) with 1000%nat in Hdata. fold history in Hdata.
  split; [exact Hdata |]. rewrite Hdata. split; [| split; [| split]].
  - unfold Py.len, MAX_RECORDS. rewrite most_recent_length. lia.
  - apply most_recent_suffix.
  - intros before later -> Hbefore.
    destruct (ingests_split _ _ _ _ Hrun) as (mid & Hfirst & Hthen).
    exists mid. split; [exact Hfirst |]. split; [exact Hthen |].
    rewrite (ingests_history _ _ _ Hfirst Hbefore).
    unfold Py.len, MAX_RECORDS. rewrite most_recent_length. lia.
  - intros k Hk. unfold history.
    rewrite most_recent_app_long by (rewrite length_map; lia).
    split; [reflexivity |]. split.
    + unfold Py.len, MAX_RECORDS. rewrite most_recent_length, length_map. lia.
    + unfold most_recent. rewrite length_map. f_equal. lia.
Qed.

(** ** Periodic save *)

(** The store after a successful request, and the number it reports. *)
Lemma receive_success now ok reading srv reply srv' :
  run (receive_sensor_data now ok reading) srv = (inr reply, srv') ->
  rejected (normalized (sd_device_id reading)) = false
  /\ sensor_data srv' = rolled (sensor_data srv) (with_received_at reading now)
  /\ records_stored (data reply) = Py.len (sensor_data srv')
  /\ stored_device_id (data reply) = normalized (sd_device_id reading).
Proof.
  intros Hrun.
  destruct (rejected (normalized (sd_device_id reading))) eqn:Hrej.
  - rewrite receive_rejected in Hrun by done. discriminate.
  - rewrite receive_accepted in Hrun by done.
    injection Hrun as <- <-. auto.
Qed.

(** C3. A successful POST /data calls [save_data] (a dump of the whole
    list) exactly when the length of the list after the append and the
    truncation, which is the count the request reports, is a multiple of 10;
    it touches the file in no other way; and the answer and the list in
    memory are the same whether or not the write succeeds. *)
Theorem C3_periodic_save now ok reading srv reply srv' :
  run (receive_sensor_data now ok reading) srv = (inr reply, srv') ->
  let n := Py.len (sensor_data srv') in
  records_stored (data reply) = n
  /\ n = Z.min (Py.len (sensor_data srv) + 1) MAX_RECORDS
  /\ (n mod 10 = 0 ->
        file_log srv' = file_log srv ++ [save_event ok (sensor_data srv')]
        /\ (ok = true -> data_file srv' = Some (sensor_data srv')))
  /\ (n mod 10 <> 0 ->
        file_log srv' = file_log srv /\ data_file srv' = data_file srv)
  /\ (forall ok', exists srv'',
        run (receive_sensor_data now ok' reading) srv = (inr reply, srv'')
        /\ sensor_data srv'' = sensor_data srv').
Proof.
  intros Hrun n.
  destruct (receive_success _ _ _ _ _ _ Hrun) as (Hacc & Hdata & Hcount & _).
  split; [exact Hcount |].
  pose proof (receive_accepted now ok reading srv Hacc) as Hok.
  cbv zeta in Hok. rewrite Hrun in Hok. injection Hok as Hreply Hsrv.
  subst n. rewrite Hdata.
  split.
  { rewrite rolled_most_recent. unfold Py.len, MAX_RECORDS.
    rewrite most_recent_length, length_app. cbn [length]. lia. }
  set (l := rolled (sensor_data srv) (with_received_at reading now)) in *.
  split; [| split].
  - intros Hmod. apply Z.eqb_eq in Hmod. rewrite Hsrv, Hmod.
    split; [reflexivity |]. now intros ->.
  - intros Hmod. apply Z.eqb_neq in Hmod. rewrite Hsrv, Hmod. cbn.
    now rewrite app_nil_r.
  - intros ok'. eexists. rewrite (receive_accepted now ok' reading srv Hacc).
    rewrite Hreply. split; reflexivity.
Qed.

(** ** GET /data/device/{device_id} *)

Lemma by_device_outcome wanted srv :
  let device_data := List.filter (same_device wanted) (sensor_data srv) in
  (device_data = []
   /\ run (get_data_by_device wanted) srv = (inl (NoDataForDevice wanted), srv))
  \/ (exists found,
        run (get_data_by_device wanted) srv = (inr found, srv)
        /\ dd_data found = device_data /\ device_data <> []).
Proof.
  intros device_data. unfold get_data_by_device. run_handler.
  fold (same_device wanted). fold device_data.
  destruct device_data as [| first rest] eqn:Hdd.
  - left. split; reflexivity.
  - right. eexists. split; [reflexivity |]. split; [reflexivity | discriminate].
Qed.

Lemma same_device_filter wanted l r :
  r ∈ List.filter (same_device wanted) l <-> r ∈ l /\ device_id r = wanted.
Proof.
  rewrite !list_elem_of_In, filter_In. unfold same_device.
  now rewrite String.eqb_eq.
Qed.

(** C4. A successful POST /data answers with the stripped device_id but
    appends the reading with the device_id as it was sent;
    GET /data/device/{id} selects by plain string equality and answers 404
    when nothing matches. Hence, when the device_id sent differs from its
    stripped form, asking for the identifier that POST returned never
    yields the reading just stored; for ' A ' on an empty store the
    answer is the 404. *)
Theorem C4_stored_id_not_normalized now ok reading srv reply srv' :
  run (receive_sensor_data now ok reading) srv = (inr reply, srv') ->
  let item := with_received_at reading now in
  stored_device_id (data reply) = Py.strip (sd_device_id reading)
  /\ last (sensor_data srv') = Some item
  /\ device_id item = sd_device_id reading
  /\ (forall wanted,
        (run (get_data_by_device wanted) srv' = (inl (NoDataForDevice wanted), srv')
         /\ is_not_found (NoDataForDevice wanted)
         /\ forall r, r ∈ sensor_data srv' -> device_id r <> wanted)
        \/ (exists found,
              run (get_data_by_device wanted) srv' = (inr found, srv')
              /\ forall r, r ∈ dd_data found
                           <-> r ∈ sensor_data srv' /\ device_id r = wanted))
  /\ (Py.strip (sd_device_id reading) <> sd_device_id reading ->
        forall found srv'',
          run (get_data_by_device (stored_device_id (data reply))) srv'
          = (inr found, srv'') ->
          item ∉ dd_data found)
  /\ (sd_device_id reading = " A " -> sensor_data srv = [] ->
        stored_device_id (data reply) = "A"
        /\ run (get_data_by_device "A") srv' = (inl (NoDataForDevice "A"), srv')).
Proof.
  intros Hrun item.
  destruct (receive_success _ _ _ _ _ _ Hrun) as (Hacc & Hdata & _ & Hid).
  rewrite normalized_strip in Hid.
  assert (Hlast : last (sensor_data srv') = Some item).
  { rewrite Hdata, rolled_most_recent. unfold most_recent.
    rewrite length_app. cbn [length].
    change (Z.to_nat MAX_RECORDS) with 1000%nat.
    rewrite drop_app_le by lia.
    destruct (drop _ (sensor_data srv)); [reflexivity |].
    now rewrite last_snoc. }
  assert (Hby : forall wanted found srv'',
             run (get_data_by_device wanted) srv' = (inr found, srv'') ->
             forall r, r ∈ dd_data found
                       <-> r ∈ sensor_data srv' /\ device_id r = wanted).
  { intros wanted found srv'' Hget r.
    destruct (by_device_outcome wanted srv') as [[_ Herr] | (f & Hok & Hf & _)].
    - rewrite Herr in Hget. discriminate.
    - rewrite Hok in Hget. injection Hget as <- _.
      rewrite Hf. apply same_device_filter. }
  split; [exact Hid |]. split; [exact Hlast |]. split; [reflexivity |].
  split; [| split].
  - intros wanted.
    destruct (by_device_outcome wanted srv') as [[Hnil Herr] | (f & Hok & Hf & _)].
    + left. split; [exact Herr |]. split; [reflexivity |].
      intros r Hr Heq.
      assert (Hin : r ∈ List.filter (same_device wanted) (sensor_data srv'))
        by now apply same_device_filter.
      rewrite Hnil in Hin. now apply not_elem_of_nil in Hin.
    + right. exists f. split; [exact Hok |]. now apply Hby with srv'.
  - intros Hne found srv'' Hget Hin.
    apply (Hby _ _ _ Hget) in Hin as [_ Heq].
    rewrite Hid in Heq. cbn in Heq. congruence.
  - intros Hraw Hempty. rewrite Hid, Hraw. split; [reflexivity |].
    rewrite Hempty in Hdata.
    destruct (by_device_outcome "A" srv') as [[_ Herr] | (f & _ & _ & Hne)];
      [exact Herr |].
    exfalso. apply Hne. rewrite Hdata. subst item.
    destruct reading; cbn in Hraw; subst. reflexivity.
Qed.

(** ** POST /data/cleanup *)

Lemma cleanup_run ok srv :
  let cleaned := List.filter kept (sensor_data srv) in
  let removed := Py.len (sensor_data srv) - Py.len cleaned in
  run (cleanup_invalid_data ok) srv =
    (inr {| status := "success";
            message := "Cleanup completed: " ++ Py.str_of_int removed
                       ++ " invalid records removed";
            data := {| initial_records := Py.len (sensor_data srv);
                       remaining_records := Py.len cleaned;
                       removed_records := removed |} |},
     {| sensor_data := cleaned;
        data_file := if ok then Some cleaned else data_file srv;
        file_log := file_log srv ++ [save_event ok cleaned] |}).
Proof.
  unfold cleanup_invalid_data. run_handler. destruct ok; reflexivity.
Qed.

Lemma filter_length_split {A} (f : A -> bool) (l : list A) :
  (length (List.filter f l) + length (List.filter (fun x => negb (f x)) l)
   = length l)%nat.
Proof.
  induction l as [| x l IH]; [reflexivity |].
  cbn. destruct (f x); cbn; lia.
Qed.

Lemma filter_sublist {A} (f : A -> bool) (l : list A) :
  List.filter f l `sublist_of` l.
Proof.
  induction l as [| x l IH]; [constructor |].
  cbn. destruct (f x); now constructor.
Qed.

Lemma filter_all {A} (f : A -> bool) (l : list A) :
  (forall x, x ∈ l -> f x = true) -> List.filter f l = l.
Proof.
  induction l as [| x l IH]; intros Hall; [reflexivity |].
  cbn. rewrite Hall by left. f_equal. apply IH.
  intros y Hy. apply Hall. now right.
Qed.

Lemma filter_idem {A} (f : A -> bool) (l : list A) :
  List.filter f (List.filter f l) = List.filter f l.
Proof.
  apply filter_all. intros x Hx.
  apply list_elem_of_In, filter_In in Hx. tauto.
Qed.

(** C7. POST /data/cleanup keeps exactly the readings whose stripped
    device_id is neither empty nor 'null', 'none' or 'undefined' in any
    letter case, in their order; it reports how many it removed; it saves
    the result; and a second call right after it removes nothing and leaves
    the store as the first call left it. *)
Theorem C7_cleanup_removes_invalid ok srv :
  exists reply srv',
    run (cleanup_invalid_data ok) srv = (inr reply, srv')
    /\ (forall r, r ∈ sensor_data srv'
                  <-> r ∈ sensor_data srv
                      /\ ~ (Py.strip (device_id r) = ""
                            \/ Py.lower (Py.strip (device_id r))
                               ∈ ["null"; "none"; "undefined"]))
    /\ sensor_data srv' `sublist_of` sensor_data srv
    /\ removed_records (data reply)
       = Py.len (List.filter (fun r => negb (kept r)) (sensor_data srv))
    /\ removed_records (data reply)
       = Py.len (sensor_data srv) - Py.len (sensor_data srv')
    /\ file_log srv' = file_log srv ++ [save_event ok (sensor_data srv')]
    /\ (forall ok', exists reply2 srv2,
          run (cleanup_invalid_data ok') srv' = (inr reply2, srv2)
          /\ removed_records (data reply2) = 0
          /\ sensor_data srv2 = sensor_data srv').
Proof.
  eexists _, _. split; [apply cleanup_run |]. cbn [sensor_data file_log data removed_records].
  split; [| split; [| split; [| split; [| split]]]].
  - intros r. rewrite list_elem_of_In, filter_In, <- list_elem_of_In.
    rewrite kept_spec. reflexivity.
  - apply filter_sublist.
  - unfold Py.len.
    pose proof (filter_length_split kept (sensor_data srv)). lia.
  - reflexivity.
  - reflexivity.
  - intros ok'. eexists _, _. split; [apply cleanup_run |].
    cbn [sensor_data data removed_records]. rewrite filter_idem.
    split; [lia | reflexivity].
Qed.

(** ** Range filters *)

Lemma by_distance_run lo hi srv :
  run (get_data_by_distance lo hi) srv =
    if (lo <? 0)%float || (hi <? lo)%float
    then (inl InvalidDistanceRange, srv)
    else
      let filtered := List.filter (in_distance_range lo hi) (sensor_data srv) in
      (inr {| total_matching := Py.len filtered;
              percentage_of_total := percentage filtered (sensor_data srv);
              filtered_data := filtered |}, srv).
Proof.
  unfold get_data_by_distance. destruct (_ || _); reflexivity.
Qed.

Lemma by_temperature_run lo hi srv :
  run (get_data_by_temperature lo hi) srv =
    if (hi <? lo)%float
    then (inl InvalidTemperatureRange, srv)
    else
      let filtered :=
        List.filter (in_temperature_range lo hi) (sensor_data srv) in
      (inr {| total_matching := Py.len filtered;
              percentage_of_total := percentage filtered (sensor_data srv);
              filtered_data := filtered |}, srv).
Proof.
  unfold get_data_by_temperature. destruct (_ <? _)%float; reflexivity.
Qed.

(** C8. The distance filter answers 400 ([InvalidDistanceRange]) exactly
    when [min < 0] or [max < min], and otherwise returns, in store order,
    the readings with [min <= distance_cm <= max], sentinel values
    included; the temperature filter answers 400
    ([InvalidTemperatureRange]) exactly when [max < min], and otherwise
    returns the readings with [min <= temperature_c <= max] and
    [temperature_c > -100]. The comparisons are those of binary64. *)
Theorem C8_range_filters lo hi srv :
  let by_dist := run (get_data_by_distance lo hi) srv in
  let by_temp := run (get_data_by_temperature lo hi) srv in
  ((exists e, by_dist.1 = inl e)
     <-> (lo <? 0)%float = true \/ (hi <? lo)%float = true)
  /\ (forall e, by_dist.1 = inl e ->
        e = InvalidDistanceRange /\ is_bad_request e /\ by_dist.2 = srv)
  /\ ((lo <? 0)%float = false -> (hi <? lo)%float = false ->
        exists found,
          by_dist = (inr found, srv)
          /\ filtered_data found `sublist_of` sensor_data srv
          /\ total_matching found = Py.len (filtered_data found)
          /\ forall r, r ∈ filtered_data found
                       <-> r ∈ sensor_data srv
                           /\ (lo <=? distance_cm r)%float = true
                           /\ (distance_cm r <=? hi)%float = true)
  /\ ((exists e, by_temp.1 = inl e) <-> (hi <? lo)%float = true)
  /\ (forall e, by_temp.1 = inl e ->
        e = InvalidTemperatureRange /\ is_bad_request e /\ by_temp.2 = srv)
  /\ ((hi <? lo)%float = false ->
        exists found,
          by_temp = (inr found, srv)
          /\ filtered_data found `sublist_of` sensor_data srv
          /\ total_matching found = Py.len (filtered_data found)
          /\ forall r, r ∈ filtered_data found
                       <-> r ∈ sensor_data srv
                           /\ (lo <=? temperature_c r)%float = true
                           /\ (temperature_c r <=? hi)%float = true
                           /\ (-100 <? temperature_c r)%float = true).
Proof.
  intros by_dist by_temp. subst by_dist by_temp.
  rewrite by_distance_run, by_temperature_run.
  split; [| split; [| split; [| split; [| split]]]].
  - rewrite <- orb_true_iff. destruct (_ || _); cbn.
    + split; [tauto | eauto].
    + split; [intros [e He]; discriminate | discriminate].
  - intros e. destruct (_ || _); cbn; [| discriminate].
    intros [= <-]. repeat split.
  - intros -> ->. cbn [orb]. eexists. split; [reflexivity |].
    cbn [filtered_data total_matching].
    split; [apply filter_sublist |]. split; [reflexivity |].
    intros r. rewrite !list_elem_of_In, filter_In. unfold in_distance_range.
    rewrite andb_true_iff. reflexivity.
  - destruct (hi <? lo)%float; cbn.
    + split; [tauto | eauto].
    + split; [intros [e He]; discriminate | discriminate].
  - intros e. destruct (hi <? lo)%float; cbn; [| discriminate].
    intros [= <-]. repeat split.
  - intros ->. eexists. split; [reflexivity |].
    cbn [filtered_data total_matching].
    split; [apply filter_sublist |]. split; [reflexivity |].
    intros r. rewrite !list_elem_of_In, filter_In. unfold in_temperature_range.
    rewrite !andb_true_iff. tauto.
Qed.

(** ** DELETE /data *)

Lemma clear_run srv :
  run clear_all_data srv =
    (inr {| status := "success";
            message := "Successfully cleared all data ("
                       ++ Py.str_of_int (Py.len (sensor_data srv))
                       ++ " records deleted)";
            data := {| deleted_records := Py.len (sensor_data srv);
                       file_deleted := true |} |},
     {| sensor_data := [];
        data_file := None;
        file_log := file_log srv
                    ++ match data_file srv with
                       | Some _ => [Removed]
                       | None => []
                       end |}).
Proof.
  unfold clear_all_data. run_handler.
  destruct (data_file srv); cbn; rewrite ?app_nil_r; reflexivity.
Qed.

(** C10. DELETE /data empties the store, removes the file and answers with
    the number of readings the store held before; right after it GET /data
    returns an empty list and GET /stats answers 404 ([NoDataForAnalysis]). *)
Theorem C10_clear_all `{Datetime} srv :
  exists reply srv',
    run clear_all_data srv = (inr reply, srv')
    /\ deleted_records (data reply) = Py.len (sensor_data srv)
    /\ sensor_data srv' = []
    /\ data_file srv' = None
    /\ (exists everything,
          run get_all_data srv' = (inr everything, srv')
          /\ all_data everything = []
          /\ all_total_records everything = 0)
    /\ run get_statistics srv' = (inl NoDataForAnalysis, srv')
    /\ is_not_found NoDataForAnalysis.
Proof.
  eexists _, _. split; [apply clear_run |].
  cbn [data deleted_records sensor_data data_file].
  repeat split. eexists. repeat split.
Qed.

(** ** Order on [received_at] strings *)

Module StrOrder.

Lemma ascii_compare_refl c : Ascii.compare c c = Eq.
Proof. apply N.compare_refl. Qed.

Lemma str_compare_refl s : String.compare s s = Eq.
Proof.
  induction s as [| c s IH]; [reflexivity |].
  cbn. now rewrite ascii_compare_refl.
Qed.

Lemma str_compare_lt_trans a b c :
  String.compare a b = Lt -> String.compare b c = Lt -> String.compare a c = Lt.
Proof.
  revert b c. induction a as [| x a IH]; intros [| y b] [| z c]; cbn; try congruence.
  unfold Ascii.compare.
  destruct (N.compare_spec (N_of_ascii x) (N_of_ascii y)) as [Hxy | Hxy | Hxy];
    destruct (N.compare_spec (N_of_ascii y) (N_of_ascii z)) as [Hyz | Hyz | Hyz];
    try congruence; intros Hab Hbc.
  - rewrite Hxy, Hyz, N.compare_refl. eauto.
  - rewrite Hxy. now apply N.compare_lt_iff in Hyz as ->.
  - rewrite <- Hyz. now apply N.compare_lt_iff in Hxy as ->.
  - assert (Hxz : (N_of_ascii x < N_of_ascii z)%N) by lia.
    now apply N.compare_lt_iff in Hxz as ->.
Qed.

Lemma str_le_refl s : String.leb s s = true.
Proof. unfold String.leb. now rewrite str_compare_refl. Qed.

Lemma str_lt_le a b : String.ltb a b = true -> String.leb a b = true.
Proof. unfold String.ltb, String.leb. now destruct (String.compare a b). Qed.

Lemma str_not_lt_ge a b : String.ltb a b = false -> String.leb b a = true.
Proof.
  unfold String.ltb, String.leb. rewrite (String.compare_antisym b a).
  now destruct (String.compare a b).
Qed.

Lemma str_lt_not_ge a b : String.ltb a b = true -> String.leb b a = false.
Proof.
  unfold String.ltb, String.leb. rewrite (String.compare_antisym b a).
  now destruct (String.compare a b).
Qed.

Lemma str_le_lt_trans a b c :
  String.leb a b = true -> String.ltb b c = true -> String.ltb a c = true.
Proof.
  unfold String.leb, String.ltb.
  destruct (String.compare a b) eqn:Hab; try discriminate; intros _.
  - apply String.compare_eq_iff in Hab. now subst.
  - destruct (String.compare b c) eqn:Hbc; try discriminate; intros _.
    now rewrite (str_compare_lt_trans _ _ _ Hab Hbc).
Qed.

End StrOrder.

(** ** GET /data/latest *)

Lemma latest_for_functional l k r r' :
  latest_for l k r -> latest_for l k r' -> r = r'.
Proof.
  intros (i & Hi & Hk & Hmax) (i' & Hi' & Hk' & Hmax').
  destruct (Nat.lt_trichotomy i i') as [Hlt | [-> | Hgt]].
  - destruct (Hmax' i r Hi Hk) as [_ Hstrict].
    destruct (Hmax i' r' Hi' Hk') as [Hle _].
    rewrite (StrOrder.str_lt_not_ge _ _ (Hstrict Hlt)) in Hle. discriminate.
  - congruence.
  - destruct (Hmax i' r' Hi' Hk') as [_ Hstrict].
    destruct (Hmax' i r Hi Hk) as [Hle _].
    rewrite (StrOrder.str_lt_not_ge _ _ (Hstrict Hgt)) in Hle. discriminate.
Qed.

Lemma latest_for_snoc_other l k r x :
  Py.strip (device_id x) <> k -> latest_for l k r -> latest_for (l ++ [x]) k r.
Proof.
  intros Hne (i & Hi & Hk & Hmax). exists i.
  split; [now apply lookup_app_l_Some |]. split; [exact Hk |].
  intros j y Hj Hy. apply lookup_snoc_Some in Hj as [[_ Hj] | [_ <-]].
  - now apply Hmax.
  - contradiction.
Qed.

Lemma latest_for_snoc_keep l k r x :
  Py.strip (device_id x) = k ->
  String.ltb (received_at r) (received_at x) = false ->
  latest_for l k r -> latest_for (l ++ [x]) k r.
Proof.
  intros Hx Hnot (i & Hi & Hk & Hmax). exists i.
  split; [now apply lookup_app_l_Some |]. split; [exact Hk |].
  intros j y Hj Hy. apply lookup_snoc_Some in Hj as [[_ Hj] | [Hlen <-]].
  - now apply Hmax.
  - split; [now apply StrOrder.str_not_lt_ge |].
    apply lookup_lt_Some in Hi. lia.
Qed.

Lemma latest_for_snoc_replace l k r x :
  Py.strip (device_id x) = k ->
  String.ltb (received_at r) (received_at x) = true ->
  latest_for l k r -> latest_for (l ++ [x]) k x.
Proof.
  intros Hx Hgt (i & Hi & Hk & Hmax). exists (length l).
  split; [apply list_lookup_middle; reflexivity |]. split; [exact Hx |].
  intros j y Hj Hy. apply lookup_snoc_Some in Hj as [[Hlt Hj] | [Hlen <-]].
  - destruct (Hmax j y Hj Hy) as [Hle _].
    pose proof (StrOrder.str_le_lt_trans _ _ _ Hle Hgt) as Hyx.
    split; [now apply StrOrder.str_lt_le | now intros _].
  - split; [apply StrOrder.str_le_refl | lia].
Qed.

Lemma latest_for_snoc_first l k x :
  Py.strip (device_id x) = k ->
  (forall y, y ∈ l -> Py.strip (device_id y) <> k) ->
  latest_for (l ++ [x]) k x.
Proof.
  intros Hx Hnone. exists (length l).
  split; [apply list_lookup_middle; reflexivity |]. split; [exact Hx |].
  intros j y Hj Hy. apply lookup_snoc_Some in Hj as [[Hlt Hj] | [Hlen <-]].
  - exfalso. apply (Hnone y); [| exact Hy]. now apply list_elem_of_lookup_2 in Hj.
  - split; [apply StrOrder.str_le_refl | lia].
Qed.

Lemma latest_inv_step l m x :
  latest_inv l m -> latest_inv (l ++ [x]) (latest_step m x).
Proof.
  intros Hinv k. unfold latest_step.
  set (d := Py.strip (device_id x)).
  pose proof (Hinv k) as Hk. pose proof (Hinv d) as Hd.
  assert (Hother : d <> k ->
            match m !! k with
            | Some r => rejected k = false /\ latest_for (l ++ [x]) k r
            | None => rejected k = true
                      \/ forall y, y ∈ l ++ [x] -> Py.strip (device_id y) <> k
            end).
  { intros Hne. destruct (m !! k) as [r |].
    - destruct Hk as [Hacc Hlat]. split; [exact Hacc |].
      now apply latest_for_snoc_other.
    - destruct Hk as [Hrej | Hnone]; [now left | right].
      intros y Hy. apply elem_of_app in Hy as [Hy | Hy]; [now apply Hnone |].
      apply list_elem_of_singleton in Hy as ->. exact Hne. }
  destruct (rejected d) eqn:Hrej.
  { destruct (decide (d = k)) as [<- | Hne]; [| now apply Hother].
    destruct (m !! d); [destruct Hd; congruence | now left]. }
  destruct (m !! d) as [cur |] eqn:Hcur.
  - destruct Hd as [_ Hlat].
    unfold Py.str_gt.
    destruct (String.ltb (received_at cur) (received_at x)) eqn:Hgt.
    + destruct (decide (d = k)) as [<- | Hne].
      * rewrite lookup_insert_eq. split; [exact Hrej |].
        now apply latest_for_snoc_replace with cur.
      * rewrite lookup_insert_ne by exact Hne. now apply Hother.
    + destruct (decide (d = k)) as [<- | Hne]; [| now apply Hother].
      rewrite Hcur. split; [exact Hrej |].
      now apply latest_for_snoc_keep.
  - destruct Hd as [Hd | Hnone]; [congruence |].
    destruct (decide (d = k)) as [<- | Hne].
    + rewrite lookup_insert_eq. split; [exact Hrej |].
      now apply latest_for_snoc_first.
    + rewrite lookup_insert_ne by exact Hne. now apply Hother.
Qed.

Lemma latest_inv_fold l : latest_inv l (fold_left latest_step l ∅).
Proof.
  induction l as [| x l IH] using rev_ind.
  - intros k. cbn. rewrite lookup_empty. right. intros x Hx.
    now apply not_elem_of_nil in Hx.
  - rewrite fold_left_app. cbn. now apply latest_inv_step.
Qed.

Lemma latest_run srv :
  run (get_latest_data true) srv =
    match sensor_data srv with
    | [] => (inl NoSensorData, srv)
    | _ :: _ =>
        let device_latest := fold_left latest_step (sensor_data srv) ∅ in
        if decide (device_latest = ∅) then (inl NoValidDevices, srv)
        else (inr (latest_per_device (Z.of_nat (size device_latest))
                                     device_latest), srv)
    end.
Proof.
  unfold get_latest_data. run_handler.
  destruct (sensor_data srv); [reflexivity |].
  cbv zeta. now destruct (decide _).
Qed.

Lemma latest_lookup l k r :
  fold_left latest_step l ∅ !! k = Some r
  <-> ~ invalid_id (device_id r) /\ latest_for l k r.
Proof.
  pose proof (latest_inv_fold l k) as Hinv. split.
  - intros Hm. rewrite Hm in Hinv. destruct Hinv as [Hacc Hlat].
    split; [| exact Hlat].
    destruct Hlat as (_ & _ & <- & _).
    rewrite <- rejected_strip_spec. congruence.
  - intros [Hvalid Hlat].
    destruct (fold_left latest_step l ∅ !! k) as [r0 |].
    + destruct Hinv as [_ Hlat0]. f_equal.
      now apply latest_for_functional with l k.
    + exfalso. destruct Hlat as (i & Hi & Hk & _).
      destruct Hinv as [Hrej | Hnone].
      * apply Hvalid, rejected_strip_spec. now rewrite Hk.
      * apply (Hnone r); [| exact Hk]. now apply list_elem_of_lookup_2 in Hi.
Qed.

Lemma latest_entry l x :
  x ∈ l -> ~ invalid_id (device_id x) ->
  is_Some (fold_left latest_step l ∅ !! Py.strip (device_id x)).
Proof.
  intros Hx Hvalid.
  pose proof (latest_inv_fold l (Py.strip (device_id x))) as Hinv.
  destruct (fold_left latest_step l ∅ !! _) as [r |]; [eauto |].
  exfalso. destruct Hinv as [Hrej | Hnone].
  - now apply Hvalid, rejected_strip_spec.
  - now apply (Hnone x).
Qed.

Lemma latest_empty l :
  fold_left latest_step l ∅ = ∅ <-> forall r, r ∈ l -> invalid_id (device_id r).
Proof.
  split.
  - intros Hempty r Hr.
    destruct (rejected (Py.strip (device_id r))) eqn:Hrej;
      [now apply rejected_strip_spec |].
    destruct (latest_entry l r Hr) as [r0 Hr0].
    + rewrite <- rejected_strip_spec. congruence.
    + rewrite Hempty, lookup_empty in Hr0. discriminate.
  - intros Hall. apply map_empty. intros k.
    destruct (fold_left latest_step l ∅ !! k) as [r |] eqn:Hk; [| reflexivity].
    apply latest_lookup in Hk as [Hvalid (i & Hi & _)].
    exfalso. apply Hvalid, Hall. now apply list_elem_of_lookup_2 in Hi.
Qed.

(** C2. With [show_all_devices], GET /data/latest answers 404
    ([NoSensorData]) on an empty store and 404 ([NoValidDevices]) when every
    stored device_id is invalid. Otherwise it returns a dictionary that has
    an entry for the stripped device_id of every reading with a valid
    device_id, and the entry under [k] is the reading carrying [k] with the
    greatest [received_at], the earliest such reading when several share
    that value. *)
Theorem C2_latest_per_device srv :
  let l := sensor_data srv in
  let outcome := run (get_latest_data true) srv in
  (l = [] -> outcome = (inl NoSensorData, srv) /\ is_not_found NoSensorData)
  /\ (l <> [] -> (forall r, r ∈ l -> invalid_id (device_id r)) ->
        outcome = (inl NoValidDevices, srv) /\ is_not_found NoValidDevices)
  /\ (l <> [] -> (exists r, r ∈ l /\ ~ invalid_id (device_id r)) ->
        exists devices,
          outcome = (inr (latest_per_device (Z.of_nat (size devices)) devices), srv)
          /\ (forall x, x ∈ l -> ~ invalid_id (device_id x) ->
                is_Some (devices !! Py.strip (device_id x)))
          /\ (forall k r, devices !! k = Some r
                          <-> ~ invalid_id (device_id r) /\ latest_for l k r)).
Proof.
  intros l outcome. subst outcome. rewrite latest_run. fold l.
  split; [| split].
  - intros ->. now split.
  - intros Hne Hall. destruct l as [| x l']; [done |].
    apply latest_empty in Hall. cbv zeta.
    destruct (decide _) as [_ | Hm]; [now split | contradiction].
  - intros Hne (r & Hr & Hvalid). destruct l as [| x l'] eqn:Hl; [done |].
    rewrite <- Hl in *. cbv zeta.
    destruct (decide _) as [Hm | _].
    + exfalso. apply Hvalid. now apply (proj1 (latest_empty l) Hm).
    + eexists. split; [reflexivity |]. split.
      * apply latest_entry.
      * apply latest_lookup.
Qed.

(** ** Order on binary64 numbers *)

Module FloatOrder.

Ltac by_cases :=
  repeat match goal with
         | s : bool |- _ => destruct s
         end;
  cbn;
  change (Pos.compare_cont Eq) with Pos.compare;
  repeat match goal with
         | |- context [Z.compare ?a ?b] =>
             destruct (Z.compare_spec a b); cbn
         | |- context [Pos.compare ?a ?b] =>
             destruct (Pos.compare_spec a b); cbn
         end;
  intros; subst;
  first [ reflexivity | discriminate | exfalso; lia ].

Lemma SFleb_trans x y z :
  SFleb x y = true -> SFleb y z = true -> SFleb x z = true.
Proof.
  unfold SFleb.
  destruct x as [sx | sx | | sx mx ex], y as [sy | sy | | sy my ey],
    z as [sz | sz | | sz mz ez]; cbn; try by_cases.
Qed.

Lemma SFleb_total x y :
  x <> S754_nan -> y <> S754_nan -> SFltb y x = false -> SFleb x y = true.
Proof.
  unfold SFleb, SFltb.
  destruct x as [sx | sx | | sx mx ex], y as [sy | sy | | sy my ey];
    cbn; try congruence; intros _ _; try by_cases.
Qed.

Lemma SFltb_leb x y : SFltb x y = true -> SFleb x y = true.
Proof. unfold SFltb, SFleb. now destruct (SFcompare x y) as [[] |]. Qed.

Lemma SFltb_not_nan x y :
  SFltb x y = true -> x <> S754_nan /\ y <> S754_nan.
Proof.
  unfold SFltb. destruct x, y; cbn; try discriminate; intros _; split; discriminate.
Qed.

Lemma SFleb_refl x : x <> S754_nan -> SFleb x x = true.
Proof.
  unfold SFleb. destruct x as [sx | sx | | sx mx ex]; cbn; try congruence;
    intros _; try by_cases.
Qed.

Lemma SFltb_not_leb x y : SFltb x y = true -> SFleb y x = false.
Proof.
  unfold SFleb, SFltb.
  destruct x as [sx | sx | | sx mx ex], y as [sy | sy | | sy my ey];
    cbn; try by_cases.
Qed.

Lemma float_lt_number x y : (x <? y)%float = true -> number x /\ number y.
Proof. rewrite ltb_spec. apply SFltb_not_nan. Qed.

Lemma float_le_refl x : number x -> (x <=? x)%float = true.
Proof. rewrite leb_spec. apply SFleb_refl. Qed.

Lemma float_le_trans x y z :
  (x <=? y)%float = true -> (y <=? z)%float = true -> (x <=? z)%float = true.
Proof. rewrite !leb_spec. apply SFleb_trans. Qed.

Lemma float_lt_le x y : (x <? y)%float = true -> (x <=? y)%float = true.
Proof. rewrite ltb_spec, leb_spec. apply SFltb_leb. Qed.

Lemma float_not_lt_ge x y :
  number x -> number y -> (y <? x)%float = false -> (x <=? y)%float = true.
Proof. rewrite ltb_spec, leb_spec. apply SFleb_total. Qed.

Lemma float_lt_not_ge x y : (x <? y)%float = true -> (y <=? x)%float = false.
Proof. rewrite ltb_spec, leb_spec. apply SFltb_not_leb. Qed.

End FloatOrder.

(** ** [min] and [max] over numbers *)

Import FloatOrder.

Lemma min_spec x rest :
  number x -> Forall number rest ->
  Py.min x rest ∈ x :: rest
  /\ forall v, v ∈ x :: rest -> (Py.min x rest <=? v)%float = true.
Proof.
  intros Hx Hrest. revert x Hx.
  induction Hrest as [| y rest Hy _ IH]; intros x Hx.
  - cbn. split; [left |]. intros v Hv.
    apply list_elem_of_singleton in Hv as ->. now apply float_le_refl.
  - change (Py.min x (y :: rest))
      with (Py.min (if (y <? x)%float then y else x) rest).
    destruct (y <? x)%float eqn:Hlt.
    + destruct (IH y Hy) as [Hin Hlow]. split; [now right |].
      intros v Hv. apply elem_of_cons in Hv as [-> | Hv]; [| now apply Hlow].
      apply float_le_trans with y; [apply Hlow; left | now apply float_lt_le].
    + destruct (IH x Hx) as [Hin Hlow]. split.
      * apply elem_of_cons in Hin as [-> | Hin]; [left | right; now right].
      * intros v Hv. apply elem_of_cons in Hv as [-> | Hv]; [apply Hlow; left |].
        apply elem_of_cons in Hv as [-> | Hv]; [| apply Hlow; now right].
        apply float_le_trans with x; [apply Hlow; left |].
        now apply float_not_lt_ge.
Qed.

Lemma max_spec x rest :
  number x -> Forall number rest ->
  Py.max x rest ∈ x :: rest
  /\ forall v, v ∈ x :: rest -> (v <=? Py.max x rest)%float = true.
Proof.
  intros Hx Hrest. revert x Hx.
  induction Hrest as [| y rest Hy _ IH]; intros x Hx.
  - cbn. split; [left |]. intros v Hv.
    apply list_elem_of_singleton in Hv as ->. now apply float_le_refl.
  - change (Py.max x (y :: rest))
      with (Py.max (if (x <? y)%float then y else x) rest).
    destruct (x <? y)%float eqn:Hlt.
    + destruct (IH y Hy) as [Hin Hup]. split; [now right |].
      intros v Hv. apply elem_of_cons in Hv as [-> | Hv]; [| now apply Hup].
      apply float_le_trans with y; [now apply float_lt_le | apply Hup; left].
    + destruct (IH x Hx) as [Hin Hup]. split.
      * apply elem_of_cons in Hin as [-> | Hin]; [left | right; now right].
      * intros v Hv. apply elem_of_cons in Hv as [-> | Hv]; [apply Hup; left |].
        apply elem_of_cons in Hv as [-> | Hv]; [| apply Hup; now right].
        apply float_le_trans with x; [| apply Hup; left].
        now apply float_not_lt_ge.
Qed.

(** ** GET /stats *)

Lemma metric_stats_reports valid :
  Forall number valid -> reports (metric_stats valid) valid.
Proof.
  intros Hnum. destruct valid as [| x rest].
  - split; [done | discriminate].
  - split; [split; discriminate |].
    intros ms [= <-]. cbn [valid_readings st_min st_max st_average].
    apply Forall_cons in Hnum as [Hx Hrest].
    destruct (min_spec x rest Hx Hrest) as [Hmin Hlow].
    destruct (max_spec x rest Hx Hrest) as [Hmax Hup].
    split; [reflexivity |]. split; [eauto |]. split; [eauto | reflexivity].
Qed.

Lemma selected_values (f : SensorDataResponse -> float) (p : float -> bool) l v :
  v ∈ map f (List.filter (fun item => p (f item)) l)
  <-> exists r, r ∈ l /\ f r = v /\ p v = true.
Proof.
  rewrite list_elem_of_In, in_map_iff. split.
  - intros (r & <- & Hr). apply filter_In in Hr as [Hr Hp].
    exists r. now rewrite list_elem_of_In.
  - intros (r & Hr & <- & Hp). exists r. split; [reflexivity |].
    apply filter_In. now rewrite <- list_elem_of_In.
Qed.

Lemma selected_numbers (f : SensorDataResponse -> float) (bound : float) l :
  Forall number (map f (List.filter (fun item => (bound <? f item)%float) l)).
Proof.
  apply Forall_forall. intros v Hv.
  apply (selected_values f (fun v => (bound <? v)%float)) in Hv
    as (_ & _ & _ & Hlt).
  now apply float_lt_number in Hlt.
Qed.

Lemma selected_filter_map (f : SensorDataResponse -> float) (p : float -> bool) l :
  map f (List.filter (fun item => p (f item)) l) = List.filter p (map f l).
Proof.
  induction l as [| r l IH]; [reflexivity |].
  cbn. destruct (p (f r)); cbn; now rewrite IH.
Qed.

Lemma last_default {A} (l : list A) (d : A) :
  l <> [] -> last l = Some (List.last l d).
Proof.
  induction l as [| x l IH]; [done |]. intros _.
  destruct l as [| y l]; [reflexivity |].
  change (last (y :: l) = Some (List.last (y :: l) d)). now apply IH.
Qed.

Section StatsFacts.
Context `{Datetime}.

Lemma stats_run srv :
  sensor_data srv <> [] -> timestamps_readable (sensor_data srv) ->
  exists hours newest,
    last (sensor_data srv) = Some newest
    /\ run get_statistics srv =
       (inr {| summary :=
                 {| total_records := Py.len (sensor_data srv);
                    data_timespan_hours := hours;
                    latest_reading := received_at newest;
                    gps_fix_rate_percent := gps_fix_rate (sensor_data srv);
                    unique_devices := count_unique_devices (sensor_data srv) |};
               temperature := metric_stats (valid_temp_data (sensor_data srv));
               humidity := metric_stats (valid_humidity_data (sensor_data srv));
               distance := metric_stats (distance_data (sensor_data srv)) |},
        srv).
Proof.
  intros Hne Hread. unfold get_statistics. run_handler.
  destruct (sensor_data srv) as [| first rest] eqn:Hl; [done |].
  destruct Hread as [hours Hhours]. rewrite Hhours.
  exists hours, (List.last (first :: rest) first). split; [| reflexivity].
  now apply last_default.
Qed.

Lemma stats_unreadable srv :
  sensor_data srv <> [] -> ~ timestamps_readable (sensor_data srv) ->
  run get_statistics srv = (inl InternalServerError, srv).
Proof.
  intros Hne Hread. unfold get_statistics. run_handler.
  destruct (sensor_data srv) as [| first rest] eqn:Hl; [done |].
  cbn in Hread. destruct (timespan_hours _ _ _); [| reflexivity].
  exfalso. apply Hread. eauto.
Qed.

Lemma timestamps_readable_dec l :
  timestamps_readable l \/ ~ timestamps_readable l.
Proof.
  destruct l as [| first rest]; [now left |]. cbn.
  destruct (timespan_hours _ _ _); [left; eauto | right; now intros [? ?]].
Qed.

(** GET /stats on a non-empty store either answers with a report or fails
    on the timestamps; it answers exactly when they are readable. *)
Lemma stats_answers srv :
  sensor_data srv <> [] ->
  timestamps_readable (sensor_data srv)
  <-> exists stats, run get_statistics srv = (inr stats, srv).
Proof.
  intros Hne. split.
  - intros Hread. destruct (stats_run srv Hne Hread) as (? & ? & _ & Hrun). eauto.
  - intros [stats Hrun].
    destruct (timestamps_readable_dec (sensor_data srv)) as [Hread | Hno];
      [exact Hread |].
    rewrite (stats_unreadable srv Hne Hno) in Hrun. discriminate.
Qed.

Lemma stats_report srv stats srv' :
  run get_statistics srv = (inr stats, srv') ->
  srv' = srv
  /\ unique_devices (summary stats) = count_unique_devices (sensor_data srv)
  /\ temperature stats = metric_stats (valid_temp_data (sensor_data srv))
  /\ humidity stats = metric_stats (valid_humidity_data (sensor_data srv))
  /\ distance stats = metric_stats (distance_data (sensor_data srv)).
Proof.
  intros Hrun.
  destruct (sensor_data srv) as [| first rest] eqn:Hl.
  - unfold get_statistics in Hrun. revert Hrun. run_handler.
    rewrite Hl. discriminate.
  - assert (Hne : sensor_data srv <> []) by now rewrite Hl.
    destruct (timestamps_readable_dec (sensor_data srv)) as [Hread | Hno].
    + destruct (stats_run srv Hne Hread) as (? & ? & _ & Hrun').
      rewrite Hrun' in Hrun. injection Hrun as <- <-.
      rewrite <- Hl. repeat split.
    + rewrite (stats_unreadable srv Hne Hno) in Hrun. discriminate.
Qed.

End StatsFacts.

Lemma count_unique_devices_distinct l :
  count_unique_devices l = Py.len (remove_dups (map device_id l)).
Proof.
  unfold count_unique_devices, Py.len. f_equal.
  rewrite <- (size_list_to_set (C := gset string) (remove_dups (map device_id l)))
    by apply NoDup_remove_dups.
  f_equal. apply set_eq. intros d.
  now rewrite !elem_of_list_to_set, elem_of_remove_dups.
Qed.

(** C6. On every non-empty store GET /stats answers with a report exactly
    when the first and last timestamps can be read (otherwise the request
    fails with a 500). In a report, each of the temperature, humidity and
    distance sub-reports is present exactly when some reading has a value
    above the sentinel bound (temperature and humidity above -100, distance
    above 0; values at or below the bound are left out), and a present
    sub-report gives the number of those values, a least and a greatest
    of them and the quotient of their sum by their number, each rounded to
    two decimals. On the temperatures -999, 20, 30 the sub-report has
    average 25 over 2 readings. *)
Theorem C6_statistics_metrics `{Datetime} srv :
  let l := sensor_data srv in
  l <> [] ->
  (timestamps_readable l
   <-> exists stats, run get_statistics srv = (inr stats, srv))
  /\ (forall stats srv', run get_statistics srv = (inr stats, srv') ->
        reports (temperature stats) (valid_temp_data l)
        /\ reports (humidity stats) (valid_humidity_data l)
        /\ reports (distance stats) (distance_data l)
        /\ (map temperature_c l = [(-999)%float; 20%float; 30%float] ->
              temperature stats
              = Some {| st_min := 20; st_max := 30; st_average := 25;
                        valid_readings := 2 |}))
  /\ valid_temp_data l
     = List.filter (fun v => (-100 <? v)%float) (map temperature_c l)
  /\ valid_humidity_data l
     = List.filter (fun v => (-100 <? v)%float) (map humidity_percent l)
  /\ distance_data l
     = List.filter (fun v => (0 <? v)%float) (map distance_cm l)
  /\ (forall v, (v <=? (-100))%float = true ->
        (v ∉ valid_temp_data l) /\ (v ∉ valid_humidity_data l))
  /\ (forall v, (v <=? 0)%float = true -> v ∉ distance_data l).
Proof.
  intros l Hne.
  assert (Htemp : valid_temp_data l
            = List.filter (fun v => (-100 <? v)%float) (map temperature_c l))
    by apply (selected_filter_map temperature_c (fun v => (-100 <? v)%float)).
  assert (Hhum : valid_humidity_data l
            = List.filter (fun v => (-100 <? v)%float) (map humidity_percent l))
    by apply (selected_filter_map humidity_percent (fun v => (-100 <? v)%float)).
  assert (Hdist : distance_data l
            = List.filter (fun v => (0 <? v)%float) (map distance_cm l))
    by apply (selected_filter_map distance_cm (fun v => (0 <? v)%float)).
  split; [now apply stats_answers |]. split.
  { intros stats srv' Hrun.
    destruct (stats_report _ _ _ Hrun) as (_ & _ & -> & -> & ->). fold l.
    split; [apply metric_stats_reports, selected_numbers |].
    split; [apply metric_stats_reports, selected_numbers |].
    split; [apply metric_stats_reports, selected_numbers |].
    intros Hthree. rewrite Htemp, Hthree. reflexivity. }
  split; [exact Htemp |]. split; [exact Hhum |]. split; [exact Hdist |].
  split.
  - intros v Hle. rewrite Htemp, Hhum, !list_elem_of_In, !filter_In.
    split; intros [_ Hlt]; apply float_lt_not_ge in Hlt; congruence.
  - intros v Hle. rewrite Hdist, list_elem_of_In, filter_In.
    intros [_ Hlt]; apply float_lt_not_ge in Hlt; congruence.
Qed.

Lemma latest_of_three r1 r2 r3 :
  device_id r1 = "null" -> device_id r2 = " A" -> device_id r3 = "A" ->
  exists r, fold_left latest_step [r1; r2; r3] ∅ = {["A" := r]}.
Proof.
  intros H1 H2 H3. cbn [fold_left].
  assert (Hs1 : latest_step ∅ r1 = ∅).
  { unfold latest_step. now rewrite H1. }
  assert (Hs2 : latest_step ∅ r2 = {["A" := r2]}).
  { unfold latest_step. rewrite H2. cbn [Py.strip Py.lstrip Py.rstrip].
    change (Py.strip " A") with "A". change (rejected "A") with false.
    cbv iota. rewrite lookup_empty. apply insert_empty. }
  rewrite Hs1, Hs2. unfold latest_step. rewrite H3.
  change (Py.strip "A") with "A". change (rejected "A") with false.
  cbv iota zeta. rewrite lookup_singleton_eq.
  destruct (Py.str_gt _ _); [| eauto].
  exists r3. apply insert_singleton_eq.
Qed.

(** C9. In every report of GET /stats (there is one on every non-empty
    store whose first and last timestamps can be read) the [unique_devices]
    entry is the number of distinct device_id strings as stored: every
    stored string counts, stripped or not, valid or not. The identifiers
    'null', ' A' and 'A' count as three devices, where GET /data/latest
    groups the same three readings under the single device 'A' and
    POST /data/cleanup drops the first. *)
Theorem C9_unique_devices_raw `{Datetime} srv :
  let l := sensor_data srv in
  l <> [] ->
  (timestamps_readable l
   <-> exists stats, run get_statistics srv = (inr stats, srv))
  /\ (forall stats srv', run get_statistics srv = (inr stats, srv') ->
        unique_devices (summary stats) = Py.len (remove_dups (map device_id l))
        /\ (map device_id l = ["null"; " A"; "A"] ->
              unique_devices (summary stats) = 3))
  /\ (forall d, d ∈ remove_dups (map device_id l)
                <-> exists r, r ∈ l /\ device_id r = d)
  /\ (map device_id l = ["null"; " A"; "A"] ->
        (exists devices,
           run (get_latest_data true) srv
           = (inr (latest_per_device 1 devices), srv)
           /\ dom devices = {["A"]})
        /\ forall ok,
             map device_id (sensor_data (run (cleanup_invalid_data ok) srv).2)
             = [" A"; "A"]).
Proof.
  intros l Hne.
  split; [now apply stats_answers |]. split; [| split].
  - intros stats srv' Hrun.
    destruct (stats_report _ _ _ Hrun) as (_ & -> & _). fold l.
    rewrite count_unique_devices_distinct. split; [reflexivity |].
    now intros ->.
  - intros d. rewrite elem_of_remove_dups, list_elem_of_In, in_map_iff.
    setoid_rewrite list_elem_of_In. split; intros (r & Hr1 & Hr2); eauto.
  - intros Hids. split.
    + rewrite latest_run. fold l.
      destruct l as [| r1 [| r2 [| r3 [| r4 rest]]]] eqn:Hl; try discriminate.
      injection Hids as H1 H2 H3.
      destruct (latest_of_three r1 r2 r3 H1 H2 H3) as [r Hr].
      cbv zeta. rewrite Hr. exists {["A" := r]}.
      destruct (decide _) as [Hempty | _].
      * now apply map_non_empty_singleton in Hempty.
      * rewrite map_size_singleton. split; [reflexivity |].
        apply dom_singleton_L.
    + intros ok. rewrite cleanup_run. cbn [snd sensor_data]. fold l.
      destruct l as [| r1 [| r2 [| r3 [| r4 rest]]]] eqn:Hl; try discriminate.
      injection Hids as H1 H2 H3.
      cbn [List.filter]. rewrite !kept_rejected, H1, H2, H3.
      change (rejected (normalized "null")) with true.
      change (rejected (normalized " A")) with false.
      change (rejected (normalized "A")) with false.
      cbn [negb map]. now rewrite H2, H3.
Qed.

(** ** The theorems at concrete stores *)

Lemma ingests_after arrivals srv :
  forallb accepted arrivals = true -> ingests srv arrivals (after arrivals srv).
Proof.
  revert srv. induction arrivals as [| a rest IH]; intros srv Hall.
  - constructor.
  - cbn in Hall. apply andb_true_iff in Hall as [Ha Hrest].
    apply negb_true_iff in Ha.
    pose proof (receive_accepted (arrived_at a) (disk_ok a) (payload a) srv Ha)
      as Hrun.
    cbv zeta in Hrun.
    change (after (a :: rest) srv) with (after rest (run (post a) srv).2).
    unfold post at 1. rewrite Hrun. cbn [snd].
    econstructor; [exact Hrun | now apply IH].
Qed.

Lemma C1_rolling_buffer_witness :
  ingests nearly_full two_arrivals (after two_arrivals nearly_full)
  /\ two_arrivals <> []
  /\ sensor_data (after two_arrivals nearly_full)
     = most_recent 1000 (sensor_data nearly_full ++ map stamped two_arrivals)
  /\ Py.len (sensor_data (after two_arrivals nearly_full)) = 1000
  /\ head (sensor_data (after two_arrivals nearly_full))
     = Some (stored "A" 20 "2024-05-17T10:00:00")
  /\ last (sensor_data (after two_arrivals nearly_full))
     = Some (with_received_at (reading_from " B ") "2024-05-17T10:00:02").
Proof.
  assert (Hrun : ingests nearly_full two_arrivals (after two_arrivals nearly_full))
    by (apply ingests_after; reflexivity).
  assert (Hne : two_arrivals <> []) by discriminate.
  split; [exact Hrun |]. split; [exact Hne |].
  split; [exact (proj1 (C1_rolling_buffer _ _ _ Hrun Hne)) |].
  split; [| split]; vm_compute; reflexivity.
Defined.

Lemma C3_periodic_save_witness :
  let srv' := after [arrival "A" "2024-05-17T10:00:01"] nine_stored in
  (exists reply,
     run (receive_sensor_data "2024-05-17T10:00:01" true (reading_from "A"))
         nine_stored = (inr reply, srv')
     /\ records_stored (data reply) = 10)
  /\ file_log srv' = [Written (sensor_data srv')]
  /\ data_file srv' = Some (sensor_data srv').
Proof.
  intros srv'.
  assert (Hrun : run (receive_sensor_data "2024-05-17T10:00:01" true
                        (reading_from "A")) nine_stored
                 = (inr {| status := "success";
                           message := "Data received and stored successfully";
                           data := {| records_stored := 10;
                                      stored_device_id := "A" |} |}, srv'))
    by reflexivity.
  destruct (C3_periodic_save _ _ _ _ _ _ Hrun) as (_ & _ & Hsave & _).
  destruct (Hsave eq_refl) as [Hlog Hfile].
  split; [eexists; split; [exact Hrun | reflexivity] |].
  split; [exact Hlog | exact (Hfile eq_refl)].
Defined.

Lemma C4_stored_id_not_normalized_witness :
  let srv' := after [arrival " A " "2024-05-17T10:00:01"] (server_with []) in
  (exists reply,
     run (receive_sensor_data "2024-05-17T10:00:01" true (reading_from " A "))
         (server_with []) = (inr reply, srv')
     /\ stored_device_id (data reply) = "A")
  /\ map device_id (sensor_data srv') = [" A "]
  /\ run (get_data_by_device "A") srv' = (inl (NoDataForDevice "A"), srv').
Proof.
  intros srv'.
  assert (Hrun : run (receive_sensor_data "2024-05-17T10:00:01" true
                        (reading_from " A ")) (server_with [])
                 = (inr {| status := "success";
                           message := "Data received and stored successfully";
                           data := {| records_stored := 1;
                                      stored_device_id := "A" |} |}, srv'))
    by reflexivity.
  destruct (C4_stored_id_not_normalized _ _ _ _ _ _ Hrun)
    as (Hid & _ & _ & _ & _ & Hexample).
  destruct (Hexample eq_refl eq_refl) as [_ Hmissing].
  split; [eexists; split; [exact Hrun | exact Hid] |].
  split; [reflexivity | exact Hmissing].
Defined.

Lemma C6_statistics_metrics_witness :
  sensor_data three_temperatures <> []
  /\ exists stats,
       run (get_statistics (H := isoformat_datetime)) three_temperatures
       = (inr stats, three_temperatures)
       /\ temperature stats
          = Some {| st_min := 20; st_max := 30; st_average := 25;
                    valid_readings := 2 |}
       /\ reports (temperature stats) [20%float; 30%float].
Proof.
  assert (Hne : sensor_data three_temperatures <> []) by discriminate.
  split; [exact Hne |].
  destruct (@C6_statistics_metrics isoformat_datetime three_temperatures Hne)
    as (Hanswers & Hreport & _).
  destruct (proj1 Hanswers) as [stats Hrun].
  { eexists. vm_compute. reflexivity. }
  exists stats. split; [exact Hrun |].
  destruct (Hreport stats _ Hrun) as (Htemp & _ & _ & Hexample).
  split; [exact (Hexample eq_refl) | exact Htemp].
Defined.

Lemma C9_unique_devices_raw_witness :
  sensor_data three_identifiers <> []
  /\ exists stats,
       run (get_statistics (H := isoformat_datetime)) three_identifiers
       = (inr stats, three_identifiers)
       /\ unique_devices (summary stats) = 3.
Proof.
  assert (Hne : sensor_data three_identifiers <> []) by discriminate.
  split; [exact Hne |].
  destruct (@C9_unique_devices_raw isoformat_datetime three_identifiers Hne)
    as (Hanswers & Hcount & _).
  destruct (proj1 Hanswers) as [stats Hrun].
  { eexists. vm_compute. reflexivity. }
  exists stats. split; [exact Hrun |].
  exact (proj2 (Hcount stats _ Hrun) eq_refl).
Defined.

(** ** Worked examples *)

Example invalid_ids_rejected :
  map (fun d => (run (receive_sensor_data "2024-05-17T10:00:01" true
                        (reading_from d)) nine_stored).1)
      [""; "null"; "NULL"; "  "; " None "; "UNDEFINED"]
  = replicate 6 (inl InvalidInput).
Proof. reflexivity. Qed.

Example latest_of_interleaved :
  let a1 := stored "A" 20 "2024-05-17T10:00:01" in
  let b2 := stored "B" 21 "2024-05-17T10:00:02" in
  let a3 := stored " A " 22 "2024-05-17T10:00:03" in
  exists devices,
    run (get_latest_data true) (server_with [a1; b2; a3])
    = (inr (latest_per_device 2 devices), server_with [a1; b2; a3])
    /\ devices !! "A" = Some a3 /\ devices !! "B" = Some b2.
Proof. eexists. split; [reflexivity |]. split; vm_compute; reflexivity. Qed.

Example latest_first_seen_on_tie :
  let first := stored "A" 20 "2024-05-17T10:00:01" in
  let second := stored "A" 25 "2024-05-17T10:00:01" in
  fold_left latest_step [first; second] ∅ !! "A" = Some first.
Proof. vm_compute. reflexivity. Qed.

Example latest_none_valid :
  run (get_latest_data true)
      (server_with [stored "null" 20 "2024-05-17T10:00:01";
                    stored "  " 20 "2024-05-17T10:00:02"])
  = (inl NoValidDevices,
     server_with [stored "null" 20 "2024-05-17T10:00:01";
                  stored "  " 20 "2024-05-17T10:00:02"]).
Proof. vm_compute. reflexivity. Qed.

Example save_on_every_request_when_full :
  let requests := two_arrivals ++ [arrival "C" "2024-05-17T10:00:03"] in
  map (fun e => match e with
                | Written l => Some (Py.len l)
                | _ => None
                end)
      (file_log (after requests nearly_full))
  = [Some 1000; Some 1000; Some 1000].
Proof. vm_compute. reflexivity. Qed.

Example cleanup_twice :
  let first := run (cleanup_invalid_data true) three_identifiers in
  let second := run (cleanup_invalid_data true) first.2 in
  answered (removed_records ∘ data) first = inr 1
  /\ answered (removed_records ∘ data) second = inr 0
  /\ sensor_data second.2 = sensor_data first.2.
Proof. split; [| split]; vm_compute; reflexivity. Qed.

Example distance_range_reversed :
  (run (get_data_by_distance 10 5) three_temperatures).1
  = inl InvalidDistanceRange.
Proof. reflexivity. Qed.

Example distance_range_keeps_sentinel :
  let low := stored "A" 20 "2024-05-17T10:00:01" in
  let item := {| device_id := "A"; timestamp := 0;
                 distance_cm := 0; distance_inch := 0;
                 temperature_c := -999; humidity_percent := -999;
                 latitude := 0; longitude := 0; gps_valid := false;
                 gps_raw := ""; gps_status := "";
                 received_at := "2024-05-17T10:00:02" |} in
  answered filtered_data (run (get_data_by_distance 0 200) (server_with [low; item]))
  = inr [low; item]
  /\ answered filtered_data (run (get_data_by_temperature (-1000) 200)
                                   (server_with [low; item]))
     = inr [low].
Proof. split; vm_compute; reflexivity. Qed.

Example clear_then_read :
  let cleared := run clear_all_data three_temperatures in
  answered (deleted_records ∘ data) cleared = inr 3
  /\ answered all_data (run get_all_data cleared.2) = inr []
  /\ (run (get_statistics (H := isoformat_datetime)) cleared.2).1
     = inl NoDataForAnalysis.
Proof. split; [| split]; vm_compute; reflexivity. Qed.

Example stats_unreadable_timestamp :
  (run (get_statistics (H := isoformat_datetime))
       (server_with [stored "A" 20 "yesterday";
                     stored "A" 21 "2024-05-17T10:00:02"])).1
  = inl InternalServerError.
Proof. vm_compute. reflexivity. Qed.

(** * Further properties of the handlers *)

(** ** A reading just stored, seen through the read endpoints *)

(** The rolling buffer keeps the new reading last, after a suffix of the
    old list. *)
Lemma rolled_snoc l x :
  exists older, rolled l x = older ++ [x] /\ older `suffix_of` l.
Proof.
  rewrite rolled_most_recent. unfold most_recent.
  rewrite length_app. cbn [length].
  change (Z.to_nat MAX_RECORDS) with 1000%nat.
  rewrite drop_app_le by lia.
  eexists. split; [reflexivity | apply suffix_drop].
Qed.

Lemma filter_snoc {A} (f : A -> bool) (l : list A) (x : A) :
  f x = true -> List.filter f (l ++ [x]) = List.filter f l ++ [x].
Proof. intros Hx. rewrite List.filter_app. cbn. now rewrite Hx. Qed.

(** GET /data/device/{id} on a list that ends with a reading of that
    device. *)
Lemma by_device_finds_last wanted srv older item :
  sensor_data srv = older ++ [item] -> device_id item = wanted ->
  exists found,
    run (get_data_by_device wanted) srv = (inr found, srv)
    /\ dd_data found = List.filter (same_device wanted) older ++ [item]
    /\ dd_total_records found = Py.len (dd_data found)
    /\ last_reading found = received_at item.
Proof.
  intros Hdata Hitem.
  assert (Hsame : same_device wanted item = true)
    by (unfold same_device; rewrite Hitem; apply String.eqb_refl).
  unfold get_data_by_device. run_handler. fold (same_device wanted).
  rewrite Hdata, (filter_snoc _ _ _ Hsame).
  set (matching := List.filter _ older).
  destruct (matching ++ [item]) as [| first rest] eqn:Hm.
  { now destruct matching. }
  eexists. split; [reflexivity |].
  cbn [dd_data last_reading dd_total_records]. rewrite <- Hm.
  split; [reflexivity |]. split; [reflexivity |]. now rewrite List.last_last.
Qed.

(** X1. POST /data then GET /data/device/{id} with the identifier as it was
    sent: the request succeeds, the reading just stored is the last item of
    the answer and [last_reading] is its time stamp. *)
Theorem post_then_get_by_device now ok reading srv reply srv' :
  run (receive_sensor_data now ok reading) srv = (inr reply, srv') ->
  exists found,
    run (get_data_by_device (sd_device_id reading)) srv' = (inr found, srv')
    /\ last (dd_data found) = Some (with_received_at reading now)
    /\ last_reading found = now
    /\ dd_total_records found = Py.len (dd_data found)
    /\ 1 <= dd_total_records found <= records_stored (data reply).
Proof.
  intros Hrun.
  destruct (receive_success _ _ _ _ _ _ Hrun) as (_ & Hdata & Hcount & _).
  destruct (rolled_snoc (sensor_data srv) (with_received_at reading now))
    as (older & Holder & _).
  rewrite Holder in Hdata.
  destruct (by_device_finds_last (sd_device_id reading) srv' older
              (with_received_at reading now) Hdata eq_refl)
    as (found & Hfound & Hitems & Htotal & Hlast).
  exists found. split; [exact Hfound |].
  split; [rewrite Hitems; apply last_snoc |].
  split; [exact Hlast |]. split; [exact Htotal |].
  rewrite Htotal, Hitems, Hcount, Hdata. unfold Py.len.
  rewrite !length_app. cbn [length].
  pose proof (List.filter_length_le (same_device (sd_device_id reading)) older).
  lia.
Qed.

(** X2. POST /data then GET /data/latest: the answer has an entry under the
    identifier that POST returned; its time stamp is not before that of the
    reading just stored, and it is that reading when the clock has passed
    every time stamp stored for the device. *)
Theorem post_then_latest now ok reading srv reply srv' :
  run (receive_sensor_data now ok reading) srv = (inr reply, srv') ->
  exists devices entry,
    run (get_latest_data true) srv'
    = (inr (latest_per_device (Z.of_nat (size devices)) devices), srv')
    /\ devices !! stored_device_id (data reply) = Some entry
    /\ String.leb now (received_at entry) = true
    /\ ((forall r, r ∈ sensor_data srv ->
                   Py.strip (device_id r) = stored_device_id (data reply) ->
                   String.ltb (received_at r) now = true) ->
        entry = with_received_at reading now).
Proof.
  intros Hrun.
  destruct (receive_success _ _ _ _ _ _ Hrun) as (Hacc & Hdata & _ & Hid).
  rewrite normalized_strip in Hid. rewrite Hid.
  destruct (rolled_snoc (sensor_data srv) (with_received_at reading now))
    as (older & Holder & Hsuffix).
  rewrite Holder in Hdata.
  set (item := with_received_at reading now) in *.
  set (k := Py.strip (sd_device_id reading)).
  assert (Hvalid : ~ invalid_id (device_id item)).
  { rewrite <- rejected_spec. cbn. congruence. }
  assert (Hin : item ∈ sensor_data srv').
  { rewrite Hdata. apply elem_of_app. right. left. }
  destruct (latest_entry _ _ Hin Hvalid) as [entry Hentry].
  change (Py.strip (device_id item)) with k in Hentry.
  exists (fold_left latest_step (sensor_data srv') ∅), entry.
  split; [| split; [exact Hentry | split]].
  - rewrite latest_run.
    destruct (sensor_data srv') as [| first rest] eqn:Hl.
    { now destruct older. }
    cbv zeta. destruct (decide _) as [Hempty | _]; [| reflexivity].
    rewrite Hempty, lookup_empty in Hentry. discriminate.
  - apply latest_lookup in Hentry as [_ (i & _ & _ & Hmax)].
    apply (Hmax (length older) item); [| reflexivity].
    rewrite Hdata. now apply list_lookup_middle.
  - intros Hnew. apply latest_lookup in Hentry as [_ Hlatest].
    apply (latest_for_functional (sensor_data srv') k); [exact Hlatest |].
    exists (length older). rewrite Hdata.
    split; [now apply list_lookup_middle |]. split; [reflexivity |].
    intros j x Hj Hk.
    apply lookup_snoc_Some in Hj as [[Hlt Hj] | [-> <-]].
    + assert (Hx : x ∈ sensor_data srv).
      { destruct Hsuffix as [dropped ->]. apply elem_of_app. right.
        now apply list_elem_of_lookup_2 in Hj. }
      specialize (Hnew x Hx Hk).
      split; [now apply StrOrder.str_lt_le | now intros _].
    + split; [apply StrOrder.str_le_refl | intros; lia].
Qed.

(** X3. The newest reading: GET /data/latest with [show_all_devices] off
    answers 404 on an empty list and otherwise returns the last reading of
    the list, whatever its device_id; right after a successful POST /data
    that reading is the one just stored, and GET /data reports the count
    that POST returned and the time stamp of that reading as
    [newest_record]. *)
Theorem newest_reading srv :
  (sensor_data srv = [] ->
     run (get_latest_data false) srv = (inl NoSensorData, srv))
  /\ (forall x, last (sensor_data srv) = Some x ->
        run (get_latest_data false) srv = (inr (single_latest x), srv))
  /\ (forall now ok reading reply srv',
        run (receive_sensor_data now ok reading) srv = (inr reply, srv') ->
        run (get_latest_data false) srv'
        = (inr (single_latest (with_received_at reading now)), srv')
        /\ exists everything,
             run get_all_data srv' = (inr everything, srv')
             /\ all_total_records everything = records_stored (data reply)
             /\ newest_record everything = Some now
             /\ all_data everything = sensor_data srv').
Proof.
  assert (Hlast : forall s x, last (sensor_data s) = Some x ->
            run (get_latest_data false) s = (inr (single_latest x), s)).
  { intros s x Hx. unfold get_latest_data. run_handler.
    destruct (sensor_data s) as [| first rest] eqn:Hl; [discriminate |].
    rewrite (last_default (first :: rest) first) in Hx by discriminate.
    now injection Hx as <-. }
  split; [| split; [apply Hlast |]].
  - intros Hl. unfold get_latest_data. run_handler. now rewrite Hl.
  - intros now ok reading reply srv' Hrun.
    destruct (receive_success _ _ _ _ _ _ Hrun) as (_ & Hdata & Hcount & _).
    destruct (rolled_snoc (sensor_data srv) (with_received_at reading now))
      as (older & Holder & _).
    rewrite Holder in Hdata.
    assert (Hnew : last (sensor_data srv') = Some (with_received_at reading now))
      by (rewrite Hdata; apply last_snoc).
    split; [now apply Hlast |].
    eexists. split; [reflexivity |].
    cbn [all_total_records newest_record all_data].
    split; [now rewrite Hcount |]. split; [now rewrite Hnew | reflexivity].
Qed.

(** ** Read endpoints *)

(** X16. No GET handler changes the list, the file or the record of file
    operations, whether it answers or raises. *)
Theorem queries_leave_server_unchanged `{Datetime} srv :
  (run get_all_data srv).2 = srv
  /\ (forall show_all_devices,
        (run (get_latest_data show_all_devices) srv).2 = srv)
  /\ (forall wanted, (run (get_data_by_device wanted) srv).2 = srv)
  /\ (forall lo hi, (run (get_data_by_distance lo hi) srv).2 = srv)
  /\ (forall lo hi, (run (get_data_by_temperature lo hi) srv).2 = srv)
  /\ (run get_statistics srv).2 = srv
  /\ (forall stamp, (run (download_data_file stamp) srv).2 = srv)
  /\ (forall read_error, (run (get_file_info read_error) srv).2 = srv).
Proof.
  split; [reflexivity |]. split.
  { intros b. unfold get_latest_data. run_handler.
    destruct (sensor_data srv); [reflexivity |].
    destruct b; [| reflexivity]. cbv zeta. now destruct (decide _). }
  split.
  { intros wanted.
    destruct (by_device_outcome wanted srv) as [[_ ->] | (found & -> & _)];
      reflexivity. }
  split; [intros lo hi; rewrite by_distance_run; now destruct (_ || _) |].
  split.
  { intros lo hi. rewrite by_temperature_run. now destruct (_ <? _)%float. }
  split.
  { unfold get_statistics. run_handler.
    destruct (sensor_data srv); [reflexivity |].
    now destruct (timespan_hours _ _ _). }
  split.
  - intros stamp. unfold download_data_file, read_data_file. run_handler.
    now destruct (data_file srv).
  - intros read_error. unfold get_file_info, read_data_file. run_handler.
    destruct (data_file srv); [| reflexivity]. now destruct read_error.
Qed.

(** ** Cleanup and the per-device view *)

Lemma latest_step_rejected m item :
  kept item = false -> latest_step m item = m.
Proof.
  rewrite kept_rejected, normalized_strip, negb_false_iff.
  intros Hrej. unfold latest_step. now rewrite Hrej.
Qed.

Lemma latest_fold_kept l m :
  fold_left latest_step (List.filter kept l) m = fold_left latest_step l m.
Proof.
  revert m. induction l as [| x l IH]; intros m; [reflexivity |].
  cbn. destruct (kept x) eqn:Hx; cbn.
  - apply IH.
  - rewrite (latest_step_rejected m x Hx). apply IH.
Qed.

Lemma filter_none {A} (f : A -> bool) (l : list A) :
  (forall x, x ∈ l -> f x = false) -> List.filter f l = [].
Proof.
  induction l as [| x l IH]; intros Hall; [reflexivity |].
  cbn. rewrite Hall by left. apply IH. intros y Hy. apply Hall. now right.
Qed.

Lemma latest_answers srv :
  fold_left latest_step (sensor_data srv) ∅ <> ∅ ->
  run (get_latest_data true) srv
  = (inr (latest_per_device
            (Z.of_nat (size (fold_left latest_step (sensor_data srv) ∅)))
            (fold_left latest_step (sensor_data srv) ∅)), srv).
Proof.
  intros Hsome. rewrite latest_run.
  destruct (sensor_data srv) as [| first rest]; [now destruct Hsome |].
  cbv zeta. now destruct (decide _).
Qed.

Lemma latest_raises srv e srv' :
  run (get_latest_data true) srv = (inl e, srv') ->
  fold_left latest_step (sensor_data srv) ∅ = ∅.
Proof.
  rewrite latest_run.
  destruct (sensor_data srv) as [| first rest]; [reflexivity |].
  cbv zeta. now destruct (decide _).
Qed.

(** X5. POST /data/cleanup does not change what GET /data/latest returns per
    device: an answer before the cleanup is the answer after it; and where
    GET /data/latest raised before (empty list, or no valid device), the
    list is empty after the cleanup and the error is the 404 for an empty
    list. *)
Theorem cleanup_keeps_latest ok srv :
  let srv' := (run (cleanup_invalid_data ok) srv).2 in
  fold_left latest_step (sensor_data srv') ∅
  = fold_left latest_step (sensor_data srv) ∅
  /\ (forall answer,
        run (get_latest_data true) srv = (inr answer, srv) ->
        run (get_latest_data true) srv' = (inr answer, srv'))
  /\ (forall e,
        run (get_latest_data true) srv = (inl e, srv) ->
        sensor_data srv' = []
        /\ run (get_latest_data true) srv' = (inl NoSensorData, srv')).
Proof.
  intros srv'.
  assert (Hdata : sensor_data srv' = List.filter kept (sensor_data srv))
    by (subst srv'; now rewrite cleanup_run).
  clearbody srv'.
  assert (Hfold : fold_left latest_step (sensor_data srv') ∅
                  = fold_left latest_step (sensor_data srv) ∅)
    by (rewrite Hdata; apply latest_fold_kept).
  split; [exact Hfold |]. split.
  - intros answer Hanswer.
    destruct (decide (fold_left latest_step (sensor_data srv) ∅ = ∅))
      as [Hempty | Hsome].
    + rewrite latest_run in Hanswer.
      destruct (sensor_data srv); [discriminate |].
      cbv zeta in Hanswer. rewrite decide_True in Hanswer by exact Hempty.
      discriminate.
    + rewrite (latest_answers srv Hsome) in Hanswer. injection Hanswer as <-.
      rewrite <- Hfold in *. now apply latest_answers.
  - intros e He. apply latest_raises in He.
    assert (Hempty : sensor_data srv' = []).
    { rewrite Hdata. apply filter_none. intros x Hx.
      destruct (kept x) eqn:Hkept; [| reflexivity].
      apply kept_spec in Hkept. destruct Hkept.
      now apply (proj1 (latest_empty _) He). }
    split; [exact Hempty |]. rewrite latest_run. now rewrite Hempty.
Qed.

(** ** Devices counted by two endpoints *)

Lemma remove_dups_length {A} `{EqDecision A} (l : list A) :
  (length (remove_dups l) <= length l)%nat.
Proof.
  induction l as [| x l IH]; [done |].
  cbn. destruct (decide_rel _ _ _); cbn; lia.
Qed.

Lemma size_list_to_set_le (l : list string) :
  (size (list_to_set l : gset string) <= length l)%nat.
Proof.
  etransitivity; [| apply (remove_dups_length l)].
  rewrite <- (size_list_to_set (C := gset string) (remove_dups l))
    by apply NoDup_remove_dups.
  apply Nat.eq_le_incl. f_equal. apply set_eq. intros d.
  now rewrite !elem_of_list_to_set, elem_of_remove_dups.
Qed.

Lemma size_set_map_le (f : string -> string) (X : gset string) :
  (size (set_map f X : gset string) <= size X)%nat.
Proof.
  unfold set_map. etransitivity; [apply size_list_to_set_le |].
  now rewrite length_fmap.
Qed.

(** The devices of GET /data/latest are the stripped valid identifiers of
    the store. *)
Lemma latest_dom l :
  dom (fold_left latest_step l ∅)
  = set_map Py.strip
      (list_to_set (map device_id (List.filter kept l)) : gset string).
Proof.
  apply set_eq. intros k.
  rewrite elem_of_dom, elem_of_map. split.
  - intros [r Hr]. apply latest_lookup in Hr as [Hvalid (i & Hi & Hk & _)].
    exists (device_id r). split; [now symmetry |].
    apply elem_of_list_to_set, list_elem_of_In, in_map.
    apply filter_In. split; [| now apply kept_spec].
    now apply list_elem_of_lookup_2, list_elem_of_In in Hi.
  - intros (raw & -> & Hraw).
    apply elem_of_list_to_set, list_elem_of_In, in_map_iff in Hraw
      as (x & <- & Hx).
    apply filter_In in Hx as [Hx Hkept].
    apply latest_entry; [now apply list_elem_of_In | now apply kept_spec].
Qed.

(** X6. GET /data/latest never reports more devices than GET /stats counts:
    [total_devices] is the number of distinct stripped valid identifiers,
    at least one, and [unique_devices] the number of distinct identifiers
    as stored. *)
Theorem latest_devices_at_most_unique `{Datetime} srv n devices stats :
  run (get_latest_data true) srv = (inr (latest_per_device n devices), srv) ->
  run get_statistics srv = (inr stats, srv) ->
  n = Z.of_nat (size (dom devices))
  /\ dom devices
     = set_map Py.strip
         (list_to_set (map device_id (List.filter kept (sensor_data srv)))
          : gset string)
  /\ 0 < n <= unique_devices (summary stats)
  /\ n <= total_records (summary stats).
Proof.
  intros Hlatest Hstats.
  destruct (decide (fold_left latest_step (sensor_data srv) ∅ = ∅))
    as [Hempty | Hsome].
  { rewrite latest_run in Hlatest.
    destruct (sensor_data srv); [discriminate |].
    cbv zeta in Hlatest. rewrite decide_True in Hlatest by exact Hempty.
    discriminate. }
  rewrite (latest_answers srv Hsome) in Hlatest.
  injection Hlatest as <- <-.
  destruct (stats_report _ _ _ Hstats) as (_ & Hunique & _).
  rewrite Hunique. unfold count_unique_devices.
  assert (Htotal : total_records (summary stats) = Py.len (sensor_data srv)).
  { destruct (sensor_data srv) as [| first rest] eqn:Hl.
    - revert Hstats. unfold get_statistics. run_handler. now rewrite Hl.
    - assert (Hne : sensor_data srv <> []) by now rewrite Hl.
      assert (Hread : timestamps_readable (sensor_data srv))
        by (apply (stats_answers srv Hne); eauto).
      destruct (stats_run srv Hne Hread) as (? & ? & _ & Hrun).
      rewrite Hrun in Hstats. injection Hstats as <-. cbn. now rewrite Hl. }
  rewrite Htotal.
  set (m := fold_left latest_step (sensor_data srv) ∅) in *.
  rewrite size_dom. split; [reflexivity |].
  split; [apply latest_dom |].
  assert (Hpos : (0 < size m)%nat).
  { destruct (size m) eqn:Hsize; [| lia].
    apply map_size_empty_iff in Hsize. now destruct Hsome. }
  assert (Hkept : (size m
                   <= size (list_to_set (map device_id
                              (List.filter kept (sensor_data srv)))
                            : gset string))%nat).
  { rewrite <- (size_dom m). subst m. rewrite latest_dom.
    apply size_set_map_le. }
  assert (Hraw : (size (list_to_set (map device_id
                          (List.filter kept (sensor_data srv))) : gset string)
                  <= size (list_to_set (map device_id (sensor_data srv))
                           : gset string))%nat).
  { apply subseteq_size. intros d.
    rewrite !elem_of_list_to_set, !list_elem_of_In, !in_map_iff.
    intros (x & <- & Hx). apply filter_In in Hx as [Hx _]. eauto. }
  assert (Hlen : (size (list_to_set (map device_id (sensor_data srv))
                        : gset string)
                  <= length (sensor_data srv))%nat).
  { etransitivity; [apply size_list_to_set_le |]. now rewrite length_map. }
  unfold Py.len. lia.
Qed.

(** ** Time stamps in arrival order *)

Lemma str_le_trans a b c :
  String.leb a b = true -> String.leb b c = true -> String.leb a c = true.
Proof.
  intros Hab Hbc.
  destruct (String.ltb b c) eqn:Hlt.
  - apply StrOrder.str_lt_le. now apply StrOrder.str_le_lt_trans with b.
  - apply StrOrder.str_not_lt_ge in Hlt.
    now rewrite (String.leb_antisym _ _ Hlt Hbc).
Qed.

Section SortedLists.
Context {A : Type} (R : relation A).

Lemma StronglySorted_sublist_of (l1 l2 : list A) :
  l1 `sublist_of` l2 -> StronglySorted R l2 -> StronglySorted R l1.
Proof.
  induction 1 as [| x l1 l2 Hsub IH | x l1 l2 Hsub IH]; intros Hsorted.
  - constructor.
  - apply StronglySorted_inv in Hsorted as [Hrest Hx].
    constructor; [now apply IH |].
    apply Forall_forall. intros y Hy.
    apply (proj1 (Forall_forall _ _) Hx). now apply (sublist_subseteq _ _ Hsub).
  - apply StronglySorted_inv in Hsorted as [Hrest _]. now apply IH.
Qed.

Lemma StronglySorted_lookup (l : list A) (i j : nat) x y :
  StronglySorted R l -> (i < j)%nat ->
  l !! i = Some x -> l !! j = Some y -> R x y.
Proof.
  intros Hsorted. revert i j.
  induction Hsorted as [| a l _ IH Ha]; intros i j Hij Hi Hj; [done |].
  destruct j as [| j]; [lia |]. cbn in Hj.
  destruct i as [| i]; cbn in Hi.
  - injection Hi as ->.
    apply (proj1 (Forall_forall _ _) Ha). now apply list_elem_of_lookup_2 in Hj.
  - apply (IH i j); [lia | done | done].
Qed.

End SortedLists.

Lemma chronological_snoc l x :
  chronological l ->
  (forall y, last l = Some y -> not_after y x) ->
  chronological (l ++ [x]).
Proof.
  intros Hl Hlast. apply StronglySorted_app_2; [| exact Hl | repeat constructor].
  intros y x' Hy Hx'. apply list_elem_of_singleton in Hx' as ->.
  destruct (last l) as [newest |] eqn:Hnewest.
  - specialize (Hlast newest eq_refl).
    apply last_Some in Hnewest as [older ->].
    apply elem_of_app in Hy as [Hy | Hy].
    + unfold not_after in *.
      apply str_le_trans with (received_at newest); [| exact Hlast].
      apply (StronglySorted_app_1_elem_of not_after older [newest] y newest Hl);
        [exact Hy | left].
    + now apply list_elem_of_singleton in Hy as ->.
  - apply last_None in Hnewest. subst. now apply not_elem_of_nil in Hy.
Qed.

(** X7. While the clock does not run backwards the list stays in the order of
    its time stamps: a successful POST /data stamped no earlier than the
    newest reading keeps a chronological list chronological, and so does
    POST /data/cleanup; GET /data then reports an [oldest_record] that is
    not after its [newest_record]. *)
Theorem chronological_kept srv :
  chronological (sensor_data srv) ->
  (forall now ok reading reply srv',
     run (receive_sensor_data now ok reading) srv = (inr reply, srv') ->
     (forall y, last (sensor_data srv) = Some y ->
                String.leb (received_at y) now = true) ->
     chronological (sensor_data srv'))
  /\ (forall ok,
        chronological (sensor_data (run (cleanup_invalid_data ok) srv).2))
  /\ (forall everything oldest newest,
        run get_all_data srv = (inr everything, srv) ->
        oldest_record everything = Some oldest ->
        newest_record everything = Some newest ->
        String.leb oldest newest = true).
Proof.
  intros Hsorted. split; [| split].
  - intros now ok reading reply srv' Hrun Hclock.
    destruct (receive_success _ _ _ _ _ _ Hrun) as (_ & -> & _).
    rewrite rolled_most_recent.
    apply StronglySorted_sublist_of
      with (sensor_data srv ++ [with_received_at reading now]).
    + apply sublist_drop.
    + apply chronological_snoc; [exact Hsorted | exact Hclock].
  - intros ok. rewrite cleanup_run. cbn [snd sensor_data].
    apply StronglySorted_sublist_of with (sensor_data srv);
      [apply filter_sublist | exact Hsorted].
  - intros everything oldest newest [= <-].
    cbn [oldest_record newest_record].
    destruct (head (sensor_data srv)) as [x |] eqn:Hx; [| discriminate].
    destruct (last (sensor_data srv)) as [y |] eqn:Hy; [| discriminate].
    intros [= <-] [= <-].
    rewrite head_lookup in Hx. rewrite last_lookup in Hy.
    destruct (pred (length (sensor_data srv))) as [| j] eqn:Hj.
    + rewrite Hx in Hy. injection Hy as <-. apply StrOrder.str_le_refl.
    + apply (StronglySorted_lookup not_after _ 0 (S j) x y Hsorted);
        [lia | exact Hx | exact Hy].
Qed.

(** X8. In a chronological list the entry that GET /data/latest returns for a
    device carries the time stamp of the device's last reading: every
    reading of the device from the entry on has the entry's time stamp, and
    every earlier one an older time stamp. When the time stamps increase
    strictly the entry is the last reading of the device. *)
Theorem latest_is_newest_when_chronological srv n devices k r :
  chronological (sensor_data srv) ->
  run (get_latest_data true) srv = (inr (latest_per_device n devices), srv) ->
  devices !! k = Some r ->
  exists i : nat,
    sensor_data srv !! i = Some r
    /\ (forall (j : nat) y,
          sensor_data srv !! j = Some y -> Py.strip (device_id y) = k ->
          ((j < i)%nat -> String.ltb (received_at y) (received_at r) = true)
          /\ ((i <= j)%nat -> received_at y = received_at r))
    /\ (strictly_chronological (sensor_data srv) ->
        forall (j : nat) y,
          sensor_data srv !! j = Some y -> Py.strip (device_id y) = k ->
          (j <= i)%nat).
Proof.
  intros Hsorted Hrun Hentry.
  assert (Hdevices : devices = fold_left latest_step (sensor_data srv) ∅).
  { destruct (decide (fold_left latest_step (sensor_data srv) ∅ = ∅))
      as [Hempty | Hsome].
    - rewrite latest_run in Hrun.
      destruct (sensor_data srv); [discriminate |].
      cbv zeta in Hrun. rewrite decide_True in Hrun by exact Hempty.
      discriminate.
    - rewrite (latest_answers srv Hsome) in Hrun. now injection Hrun as _ <-. }
  subst devices.
  apply latest_lookup in Hentry as [_ (i & Hi & Hk & Hmax)].
  exists i. split; [exact Hi |]. split.
  - intros j y Hj Hy. destruct (Hmax j y Hj Hy) as [Hle Hlt].
    split; [exact Hlt |]. intros Hij.
    destruct (decide (i = j)) as [<- | Hne]; [congruence |].
    apply String.leb_antisym; [exact Hle |].
    apply (StronglySorted_lookup not_after _ i j r y Hsorted);
      [lia | exact Hi | exact Hj].
  - intros Hstrict j y Hj Hy.
    destruct (decide (j <= i)%nat) as [Hle | Hgt]; [exact Hle |].
    exfalso. destruct (Hmax j y Hj Hy) as [Hle _].
    assert (Hlt : before r y).
    { apply (StronglySorted_lookup before _ i j r y Hstrict);
        [lia | exact Hi | exact Hj]. }
    unfold before in Hlt. apply StrOrder.str_lt_not_ge in Hlt. congruence.
Qed.

(** ** What the file holds *)

Lemma unsaved_tail_step now reading srv reply srv' tail :
  run (receive_sensor_data now true reading) srv = (inr reply, srv') ->
  unsaved_tail srv tail ->
  exists tail', unsaved_tail srv' tail'.
Proof.
  intros Hrun [Hmem Hlen].
  destruct (receive_success _ _ _ _ _ _ Hrun) as (Hacc & _).
  rewrite (receive_accepted now true reading srv Hacc) in Hrun.
  cbv zeta in Hrun. injection Hrun as _ <-.
  set (item := with_received_at reading now) in *.
  set (l' := rolled (sensor_data srv) item).
  unfold unsaved_tail, persisted. cbn [sensor_data data_file].
  destruct (Py.len l' mod 10 =? 0) eqn:Hsave; cbn [andb default].
  - exists []. rewrite app_nil_r. split; [reflexivity |].
    apply Z.eqb_eq in Hsave. rewrite Hsave. reflexivity.
  - apply Z.eqb_neq in Hsave.
    assert (Hl' : l' = sensor_data srv ++ [item]).
    { subst l'. unfold rolled.
      destruct (MAX_RECORDS <? _) eqn:Hfull; [| reflexivity].
      exfalso. apply Hsave. fold (rolled (sensor_data srv) item).
      rewrite rolled_most_recent. unfold Py.len.
      rewrite most_recent_length.
      apply Z.ltb_lt in Hfull. unfold Py.len, MAX_RECORDS in Hfull.
      change (Z.to_nat MAX_RECORDS) with 1000%nat.
      replace (Z.of_nat (Nat.min 1000 (length (sensor_data srv ++ [item]))))
        with 1000 by lia.
      reflexivity. }
    exists (tail ++ [item]). rewrite Hl' in *. fold (persisted srv).
    split; [now rewrite Hmem at 1; rewrite <- app_assoc |].
    unfold Py.len in *. rewrite !length_app in *. cbn [length] in *.
    rewrite !Nat2Z.inj_add in *. change (Z.of_nat 1) with 1 in *.
    set (n := Z.of_nat (length (sensor_data srv))) in *.
    set (t := Z.of_nat (length tail)) in *.
    pose proof (Z.mod_pos_bound n 10 eq_refl).
    pose proof (Z.mod_pos_bound (n + 1) 10 eq_refl).
    pose proof (Z.div_mod n 10). pose proof (Z.div_mod (n + 1) 10).
    lia.
Qed.

(** X9. When every write of the file succeeds, successful POST /data requests
    keep the list in memory equal to the list of the file followed by at
    most nine readings not yet written: the list is saved whenever its
    length is a multiple of 10. The property holds to begin with when the
    list and the file agree. *)
Theorem unsaved_readings_bounded srv arrivals srv' tail :
  ingests srv arrivals srv' ->
  Forall (fun a => disk_ok a = true) arrivals ->
  unsaved_tail srv tail ->
  exists tail',
    unsaved_tail srv' tail'
    /\ sensor_data srv' = persisted srv' ++ tail'
    /\ Py.len tail' <= 9.
Proof.
  intros Hrun. revert tail.
  induction Hrun as [srv | srv a reply srv1 rest srv2 Hstep _ IH];
    intros tail Hok Htail.
  - exists tail. split; [exact Htail |]. destruct Htail as [Hmem Hlen].
    split; [exact Hmem |].
    pose proof (Z.mod_pos_bound (Py.len (sensor_data srv)) 10 eq_refl). lia.
  - apply Forall_cons in Hok as [Ha Hok].
    unfold post in Hstep. rewrite Ha in Hstep.
    destruct (unsaved_tail_step _ _ _ _ _ _ Hstep Htail) as [tail1 Htail1].
    now apply (IH tail1).
Qed.

(** ** Percentages *)

Lemma truediv_int_zero n : 0 < n -> Py.truediv_int 0 n = 0%float.
Proof. destruct n as [| p | p]; [lia | reflexivity | lia]. Qed.

Lemma truediv_int_same n : 0 < n -> Py.truediv_int n n = 1%float.
Proof.
  destruct n as [| p | p]; [lia | intros _ | lia].
  unfold Py.truediv_int, Py.exact_int, SFdiv, SFdiv_core_binary.
  replace (Zdigits2 (Z.pos p) + 0 - (Zdigits2 (Z.pos p) + 0)) with 0 by lia.
  change (0 - 0 - Z.min (fexp prec emax 0) (0 - 0)) with 53.
  change (Z.min (fexp prec emax 0) (0 - 0)) with (-53).
  cbv iota.
  assert (Hdiv : Z.div_eucl (Z.shiftl (Z.pos p) 53) (Z.pos p) = (2 ^ 53, 0)).
  { rewrite Z.shiftl_mul_pow2 by lia.
    pose proof (Z.div_eucl_eq (Z.pos p * 2 ^ 53) (Z.pos p) ltac:(lia)) as Heq.
    pose proof (Z.mod_pos_bound (Z.pos p * 2 ^ 53) (Z.pos p) ltac:(lia)) as Hb.
    unfold Z.modulo in Hb.
    destruct (Z.div_eucl (Z.pos p * 2 ^ 53) (Z.pos p)) as [q r].
    assert (q = 2 ^ 53) by nia. f_equal; nia. }
  change IntDef.Z.div_eucl with Z.div_eucl. rewrite Hdiv.
  unfold new_location. destruct (Z.even (Z.pos p)); reflexivity.
Qed.

Lemma len_positive {A} (l : list A) : l <> [] -> 0 < Py.len l.
Proof. destruct l; [done |]. intros _. unfold Py.len. cbn [length]. lia. Qed.

Lemma percentage_none all : percentage [] all = 0%float.
Proof.
  destruct all as [| x all]; [reflexivity |].
  unfold percentage. change (Py.len []) with 0.
  now rewrite truediv_int_zero by (apply len_positive; discriminate).
Qed.

Lemma percentage_all all : all <> [] -> percentage all all = 100%float.
Proof.
  intros Hne. destruct all as [| x all]; [done |].
  unfold percentage. now rewrite truediv_int_same by now apply len_positive.
Qed.

(** X14. The two ends of the percentages. A range filter that matches nothing
    answers with an empty list and 0 percent, also on an empty store (the
    quotient is not computed there); one that matches every reading of a
    non-empty store reports 100. [gps_fix_rate_percent] is 100 when every
    reading has a GPS fix and 0 when none has. *)
Theorem percentage_extremes `{Datetime} srv :
  (forall lo hi found,
     run (get_data_by_distance lo hi) srv = (inr found, srv)
     \/ run (get_data_by_temperature lo hi) srv = (inr found, srv) ->
     (filtered_data found = [] ->
        total_matching found = 0 /\ percentage_of_total found = 0%float)
     /\ (filtered_data found = sensor_data srv -> sensor_data srv <> [] ->
          percentage_of_total found = 100%float))
  /\ (forall stats,
        run get_statistics srv = (inr stats, srv) ->
        (Forall (fun r => gps_valid r = true) (sensor_data srv) ->
           gps_fix_rate_percent (summary stats) = 100%float)
        /\ (Forall (fun r => gps_valid r = false) (sensor_data srv) ->
             gps_fix_rate_percent (summary stats) = 0%float)).
Proof.
  split.
  - intros lo hi found Hfound.
    assert (Hpct : percentage_of_total found
                   = percentage (filtered_data found) (sensor_data srv)
                   /\ total_matching found = Py.len (filtered_data found)).
    { destruct Hfound as [Hrun | Hrun].
      - rewrite by_distance_run in Hrun.
        destruct (_ || _); [discriminate |]. now injection Hrun as <-.
      - rewrite by_temperature_run in Hrun.
        destruct (_ <? _)%float; [discriminate |]. now injection Hrun as <-. }
    destruct Hpct as [-> ->]. split.
    + intros ->. split; [reflexivity | apply percentage_none].
    + intros -> Hne. now apply percentage_all.
  - intros stats Hstats.
    assert (Hrate : gps_fix_rate_percent (summary stats)
                    = gps_fix_rate (sensor_data srv)
                    /\ sensor_data srv <> []).
    { destruct (sensor_data srv) as [| first rest] eqn:Hl.
      - revert Hstats. unfold get_statistics. run_handler. now rewrite Hl.
      - assert (Hne : sensor_data srv <> []) by now rewrite Hl.
        assert (Hread : timestamps_readable (sensor_data srv))
          by (apply (stats_answers srv Hne); eauto).
        destruct (stats_run srv Hne Hread) as (? & ? & _ & Hrun).
        rewrite Hrun in Hstats. injection Hstats as <-. cbn.
        now rewrite Hl. }
    destruct Hrate as [-> Hne]. unfold gps_fix_rate. split; intros Hall.
    + rewrite filter_all
        by (intros r Hr; now apply (proj1 (Forall_forall _ _) Hall)).
      now rewrite truediv_int_same by now apply len_positive.
    + rewrite filter_none
        by (intros r Hr; now apply (proj1 (Forall_forall _ _) Hall)).
      change (Py.len []) with 0.
      now rewrite truediv_int_zero by now apply len_positive.
Qed.

(** ** Restart *)


(** ** The file endpoints *)

(** X11. Without a file both file endpoints answer 404. With a file,
    GET /data/file/info reports the number of readings in the file and in
    memory, and a valid structure exactly when the file holds a reading;
    while the unsaved readings are bounded as above the two numbers differ
    by at most 9, and right after a cleanup whose write succeeded they are
    both the number of remaining readings. *)
Theorem file_info_counts srv :
  (data_file srv = None ->
     forall read_error stamp,
       run (get_file_info read_error) srv = (inl DataFileNotFound, srv)
       /\ run (download_data_file stamp) srv = (inl DataFileNotFound, srv))
  /\ (forall file_data,
        data_file srv = Some file_data ->
        exists info,
          run (get_file_info None) srv = (inr info, srv)
          /\ records_in_file info = Py.len file_data
          /\ records_in_memory info = Py.len (sensor_data srv)
          /\ (file_structure_valid info = true <-> file_data <> [])
          /\ forall tail,
               unsaved_tail srv tail ->
               0 <= records_in_memory info - records_in_file info <= 9)
  /\ (exists reply info,
        let cleaned := (run (cleanup_invalid_data true) srv).2 in
        run (cleanup_invalid_data true) srv = (inr reply, cleaned)
        /\ run (get_file_info None) cleaned = (inr info, cleaned)
        /\ records_in_file info = remaining_records (data reply)
        /\ records_in_memory info = remaining_records (data reply)).
Proof.
  split; [| split].
  - intros Hnone read_error stamp.
    unfold get_file_info, download_data_file, read_data_file. run_handler.
    now rewrite Hnone.
  - intros file_data Hfile. eexists. split.
    { unfold get_file_info, read_data_file. run_handler.
      rewrite Hfile. reflexivity. }
    cbn [records_in_file records_in_memory file_structure_valid].
    split; [reflexivity |]. split; [reflexivity |]. split.
    + now destruct file_data.
    + intros tail [Hmem Hlen]. unfold persisted in Hmem.
      rewrite Hfile in Hmem. cbn in Hmem.
      pose proof (Z.mod_pos_bound (Py.len (sensor_data srv)) 10 eq_refl).
      rewrite Hmem in *. unfold Py.len in *. rewrite length_app in *. lia.
  - rewrite cleanup_run. cbn [snd]. eexists _, _.
    split; [reflexivity |]. split; [reflexivity |]. split; reflexivity.
Qed.

(** ** DELETE /data *)

(** X12. DELETE /data twice: the second call deletes nothing and removes no
    file, yet both answers say [file_deleted]; after the first call the
    list and the file agree (both are empty) and both file endpoints answer
    404. *)
Theorem clear_all_twice srv :
  let first := run clear_all_data srv in
  let second := run clear_all_data first.2 in
  answered (deleted_records ∘ data) second = inr 0
  /\ answered (file_deleted ∘ data) first = inr true
  /\ answered (file_deleted ∘ data) second = inr true
  /\ file_log first.2
     = file_log srv ++ match data_file srv with
                       | Some _ => [Removed]
                       | None => []
                       end
  /\ second.2 = first.2
  /\ unsaved_tail first.2 []
  /\ (forall read_error stamp,
        run (get_file_info read_error) first.2 = (inl DataFileNotFound, first.2)
        /\ run (download_data_file stamp) first.2
           = (inl DataFileNotFound, first.2)).
Proof.
  intros first second. subst second first. rewrite !clear_run.
  cbn [fst snd sensor_data data_file file_log]. rewrite !app_nil_r.
  split; [reflexivity |]. split; [reflexivity |]. split; [reflexivity |].
  split; [reflexivity |]. split; [reflexivity |].
  split; [split; [reflexivity | discriminate] |].
  intros read_error stamp. split; reflexivity.
Qed.

(** ** The empty store *)

(** X13. On an empty list GET /data, both range filters (with acceptable
    bounds), the cleanup and DELETE /data answer, with no reading and
    counts 0, while GET /data/latest (either mode), GET /data/device/{id}
    and GET /stats answer 404. *)
Theorem empty_store_answers `{Datetime} srv :
  sensor_data srv = [] ->
  answered id (run get_all_data srv)
  = inr {| all_total_records := 0; oldest_record := None;
           newest_record := None; all_data := [] |}
  /\ (forall lo hi,
        (lo <? 0)%float = false -> (hi <? lo)%float = false ->
        answered id (run (get_data_by_distance lo hi) srv)
        = inr {| total_matching := 0; percentage_of_total := 0;
                 filtered_data := [] |})
  /\ (forall lo hi,
        (hi <? lo)%float = false ->
        answered id (run (get_data_by_temperature lo hi) srv)
        = inr {| total_matching := 0; percentage_of_total := 0;
                 filtered_data := [] |})
  /\ (forall ok,
        answered data (run (cleanup_invalid_data ok) srv)
        = inr {| initial_records := 0; remaining_records := 0;
                 removed_records := 0 |})
  /\ answered (deleted_records ∘ data) (run clear_all_data srv) = inr 0
  /\ (forall show_all_devices,
        run (get_latest_data show_all_devices) srv = (inl NoSensorData, srv))
  /\ (forall wanted,
        run (get_data_by_device wanted) srv = (inl (NoDataForDevice wanted), srv))
  /\ run get_statistics srv = (inl NoDataForAnalysis, srv).
Proof.
  intros Hempty.
  split; [unfold answered, get_all_data; run_handler; now rewrite Hempty |].
  split.
  { intros lo hi Hlo Hhi. rewrite by_distance_run, Hlo, Hhi, Hempty.
    reflexivity. }
  split.
  { intros lo hi Hhi. rewrite by_temperature_run, Hhi, Hempty. reflexivity. }
  split; [intros ok; rewrite cleanup_run, Hempty; reflexivity |].
  split; [rewrite clear_run, Hempty; reflexivity |].
  split.
  { intros b. unfold get_latest_data. run_handler. now rewrite Hempty. }
  split.
  { intros wanted.
    destruct (by_device_outcome wanted srv) as [[_ Herr] | (f & _ & _ & Hne)];
      [exact Herr |].
    rewrite Hempty in Hne. now destruct Hne. }
  unfold get_statistics. run_handler. now rewrite Hempty.
Qed.

(** ** The identifier that POST /data returns *)

Lemma lstrip_fixed c s :
  Py.isspace c = false -> Py.lstrip (String c s) = String c s.
Proof. intros Hc. cbn. now rewrite Hc. Qed.

Lemma lstrip_head s :
  Py.lstrip s = ""
  \/ exists c t, Py.lstrip s = String c t /\ Py.isspace c = false.
Proof.
  induction s as [| c s IH]; [now left |].
  cbn. destruct (Py.isspace c) eqn:Hc; [exact IH | right; eauto].
Qed.

Lemma rstrip_head c s :
  Py.isspace c = false -> exists t, Py.rstrip (String c s) = String c t.
Proof.
  intros Hc. cbn. rewrite Hc. destruct (Py.rstrip s); eauto.
Qed.

Lemma rstrip_idempotent s : Py.rstrip (Py.rstrip s) = Py.rstrip s.
Proof.
  induction s as [| c s IH]; [reflexivity |].
  cbn. destruct (Py.rstrip s) as [| d r] eqn:Hr.
  - destruct (Py.isspace c) eqn:Hc; [reflexivity |]. cbn. now rewrite Hc.
  - transitivity (match Py.rstrip (String d r) with
                  | EmptyString =>
                      if Py.isspace c then EmptyString else String c EmptyString
                  | r' => String c r'
                  end); [reflexivity | now rewrite IH].
Qed.

Lemma strip_idempotent s : Py.strip (Py.strip s) = Py.strip s.
Proof.
  unfold Py.strip.
  destruct (lstrip_head s) as [-> | (c & t & -> & Hc)]; [reflexivity |].
  destruct (rstrip_head c t Hc) as [t' Ht'].
  rewrite Ht', (lstrip_fixed c t' Hc), <- Ht'. apply rstrip_idempotent.
Qed.

(** X4. The identifier that a successful POST /data returns can be used as it
    is: a reading sent under it is accepted, POST returns the same
    identifier again, the reading is stored under exactly that identifier,
    and GET /data/device/{id} with it finds the reading. *)
Theorem returned_id_usable now ok reading srv reply srv' :
  run (receive_sensor_data now ok reading) srv = (inr reply, srv') ->
  forall now2 ok2 reading2 srv2,
    sd_device_id reading2 = stored_device_id (data reply) ->
    exists reply2 srv2' found,
      run (receive_sensor_data now2 ok2 reading2) srv2 = (inr reply2, srv2')
      /\ stored_device_id (data reply2) = stored_device_id (data reply)
      /\ last (sensor_data srv2') = Some (with_received_at reading2 now2)
      /\ device_id (with_received_at reading2 now2)
         = stored_device_id (data reply)
      /\ run (get_data_by_device (stored_device_id (data reply))) srv2'
         = (inr found, srv2')
      /\ last (dd_data found) = Some (with_received_at reading2 now2).
Proof.
  intros Hrun now2 ok2 reading2 srv2 Hid2.
  destruct (receive_success _ _ _ _ _ _ Hrun) as (Hacc & _ & _ & Hid).
  rewrite normalized_strip in Hid, Hacc.
  assert (Hacc2 : rejected (normalized (sd_device_id reading2)) = false).
  { rewrite normalized_strip, Hid2, Hid, strip_idempotent. exact Hacc. }
  pose proof (receive_accepted now2 ok2 reading2 srv2 Hacc2) as Hrun2.
  cbv zeta in Hrun2.
  destruct (rolled_snoc (sensor_data srv2) (with_received_at reading2 now2))
    as (older & Holder & _).
  rewrite Holder in Hrun2.
  match type of Hrun2 with _ = (_, ?s) => set (srv2' := s) in * end.
  destruct (by_device_finds_last (stored_device_id (data reply)) srv2' older
              (with_received_at reading2 now2) eq_refl Hid2)
    as (found & Hfound & Hitems & _).
  eexists _, srv2', found. split; [exact Hrun2 |].
  cbn [data stored_device_id].
  split; [now rewrite normalized_strip, Hid2, Hid, strip_idempotent |].
  split; [apply last_snoc |].
  split; [exact Hid2 |]. split; [exact Hfound |].
  rewrite Hitems. apply last_snoc.
Qed.

(** ** Range filters compared *)

Lemma filter_implies_sublist {A} (f g : A -> bool) (l : list A) :
  (forall x, f x = true -> g x = true) ->
  List.filter f l `sublist_of` List.filter g l.
Proof.
  intros Himp. induction l as [| x l IH]; [constructor |].
  cbn. destruct (f x) eqn:Hf.
  - rewrite (Himp x Hf). now constructor.
  - destruct (g x); [now constructor | exact IH].
Qed.

(** X15. Widening a range never loses a reading: the answer for [lo..hi] is a
    sublist of the answer for any range [lo'..hi'] with [lo' <= lo] and
    [hi <= hi'], for distance and for temperature. And the temperature
    filter never returns more readings than GET /stats counts as valid
    temperatures. *)
Theorem range_filters_monotone `{Datetime} srv lo hi lo' hi' :
  (lo' <=? lo)%float = true -> (hi <=? hi')%float = true ->
  (forall found found',
     run (get_data_by_distance lo hi) srv = (inr found, srv) ->
     run (get_data_by_distance lo' hi') srv = (inr found', srv) ->
     filtered_data found `sublist_of` filtered_data found'
     /\ total_matching found <= total_matching found')
  /\ (forall found found',
        run (get_data_by_temperature lo hi) srv = (inr found, srv) ->
        run (get_data_by_temperature lo' hi') srv = (inr found', srv) ->
        filtered_data found `sublist_of` filtered_data found'
        /\ total_matching found <= total_matching found')
  /\ (forall found stats,
        run (get_data_by_temperature lo hi) srv = (inr found, srv) ->
        run get_statistics srv = (inr stats, srv) ->
        total_matching found = 0
        \/ exists report,
             temperature stats = Some report
             /\ total_matching found <= valid_readings report).
Proof.
  intros Hlo Hhi.
  assert (Hlen : forall (f g : SensorDataResponse -> bool),
            List.filter f (sensor_data srv) `sublist_of` List.filter g (sensor_data srv) ->
            Py.len (List.filter f (sensor_data srv))
            <= Py.len (List.filter g (sensor_data srv))).
  { intros f g Hsub. apply sublist_length in Hsub. unfold Py.len. lia. }
  split; [| split].
  - intros found found'. rewrite !by_distance_run.
    destruct (_ || _); [discriminate |]. destruct (_ || _); [discriminate |].
    intros [= <-] [= <-]. cbn [filtered_data total_matching].
    assert (Hsub : List.filter (in_distance_range lo hi) (sensor_data srv)
                   `sublist_of`
                   List.filter (in_distance_range lo' hi') (sensor_data srv)).
    { apply filter_implies_sublist. intros x. unfold in_distance_range.
      rewrite !andb_true_iff. intros [H1 H2]. split.
      - now apply FloatOrder.float_le_trans with lo.
      - now apply FloatOrder.float_le_trans with hi. }
    split; [exact Hsub | now apply Hlen].
  - intros found found'. rewrite !by_temperature_run.
    destruct (hi <? lo)%float; [discriminate |].
    destruct (hi' <? lo')%float; [discriminate |].
    intros [= <-] [= <-]. cbn [filtered_data total_matching].
    assert (Hsub : List.filter (in_temperature_range lo hi) (sensor_data srv)
                   `sublist_of`
                   List.filter (in_temperature_range lo' hi') (sensor_data srv)).
    { apply filter_implies_sublist. intros x. unfold in_temperature_range.
      rewrite !andb_true_iff. intros [[H1 H2] H3]. repeat split.
      - now apply FloatOrder.float_le_trans with lo.
      - now apply FloatOrder.float_le_trans with hi.
      - exact H3. }
    split; [exact Hsub | now apply Hlen].
  - intros found stats. rewrite by_temperature_run.
    destruct (hi <? lo)%float; [discriminate |].
    intros [= <-] Hstats. cbn [total_matching].
    destruct (stats_report _ _ _ Hstats) as (_ & _ & -> & _).
    set (above := fun item => (-100 <? temperature_c item)%float).
    assert (Hsub : List.filter (in_temperature_range lo hi) (sensor_data srv)
                   `sublist_of` List.filter above (sensor_data srv)).
    { apply filter_implies_sublist. intros x. unfold in_temperature_range.
      rewrite !andb_true_iff. now intros [_ H3]. }
    apply Hlen in Hsub. unfold valid_temp_data. fold above.
    destruct (List.filter above (sensor_data srv)) as [| x rest] eqn:Hvalid.
    + left. change (Py.len []) with 0 in Hsub.
      unfold Py.len in *. lia.
    + right. eexists. split; [reflexivity |]. cbn [valid_readings].
      unfold Py.len in *. rewrite length_map. exact Hsub.
Qed.

(** ** The further properties at concrete stores *)

Lemma post_then_get_by_device_witness :
  let srv' := after [arrival " B " "2024-05-17T10:00:01"] nine_stored in
  (exists reply,
     run (receive_sensor_data "2024-05-17T10:00:01" true (reading_from " B "))
         nine_stored = (inr reply, srv'))
  /\ exists found,
       run (get_data_by_device " B ") srv' = (inr found, srv')
       /\ last_reading found = "2024-05-17T10:00:01"
       /\ 1 <= dd_total_records found <= 10.
Proof.
  intros srv'.
  assert (Hrun : run (receive_sensor_data "2024-05-17T10:00:01" true
                        (reading_from " B ")) nine_stored
                 = (inr {| status := "success";
                           message := "Data received and stored successfully";
                           data := {| records_stored := 10;
                                      stored_device_id := "B" |} |}, srv'))
    by reflexivity.
  split; [eauto |].
  destruct (post_then_get_by_device _ _ _ _ _ _ Hrun)
    as (found & Hfound & _ & Hnow & _ & Hbounds).
  exists found. split; [exact Hfound |]. split; [exact Hnow | exact Hbounds].
Defined.

Lemma post_then_latest_witness :
  let srv' := after [arrival " B " "2024-05-17T10:00:01"] nine_stored in
  (exists reply,
     run (receive_sensor_data "2024-05-17T10:00:01" true (reading_from " B "))
         nine_stored = (inr reply, srv'))
  /\ exists devices,
       run (get_latest_data true) srv'
       = (inr (latest_per_device (Z.of_nat (size devices)) devices), srv')
       /\ devices !! "B"
          = Some (with_received_at (reading_from " B ") "2024-05-17T10:00:01").
Proof.
  intros srv'.
  assert (Hrun : run (receive_sensor_data "2024-05-17T10:00:01" true
                        (reading_from " B ")) nine_stored
                 = (inr {| status := "success";
                           message := "Data received and stored successfully";
                           data := {| records_stored := 10;
                                      stored_device_id := "B" |} |}, srv'))
    by reflexivity.
  split; [eauto |].
  destruct (post_then_latest _ _ _ _ _ _ Hrun)
    as (devices & entry & Hlatest & Hentry & _ & Hnew).
  exists devices. split; [exact Hlatest |].
  rewrite <- Hnew; [exact Hentry |].
  intros r Hr Hk. exfalso.
  apply elem_of_replicate in Hr as [-> _]. discriminate Hk.
Defined.

Lemma latest_devices_at_most_unique_witness :
  exists n devices stats,
    run (get_latest_data true) three_identifiers
    = (inr (latest_per_device n devices), three_identifiers)
    /\ run (get_statistics (H := isoformat_datetime)) three_identifiers
       = (inr stats, three_identifiers)
    /\ 0 < n <= unique_devices (summary stats).
Proof.
  assert (Hne : sensor_data three_identifiers <> []) by discriminate.
  destruct (proj1 (@stats_answers isoformat_datetime three_identifiers Hne))
    as [stats Hstats].
  { eexists. vm_compute. reflexivity. }
  assert (Hlatest : run (get_latest_data true) three_identifiers
            = (inr (latest_per_device 1
                      (fold_left latest_step (sensor_data three_identifiers) ∅)),
               three_identifiers)) by reflexivity.
  exists 1, (fold_left latest_step (sensor_data three_identifiers) ∅), stats.
  split; [exact Hlatest |]. split; [exact Hstats |].
  exact (proj1 (proj2 (proj2
    (@latest_devices_at_most_unique isoformat_datetime _ _ _ _ Hlatest Hstats)))).
Defined.

Lemma three_temperatures_chronological :
  strictly_chronological (sensor_data three_temperatures)
  /\ chronological (sensor_data three_temperatures).
Proof. split; repeat (constructor || reflexivity). Qed.

Lemma chronological_kept_witness :
  chronological (sensor_data three_temperatures)
  /\ forall ok,
       chronological
         (sensor_data (run (cleanup_invalid_data ok) three_temperatures).2).
Proof.
  assert (Hsorted : chronological (sensor_data three_temperatures))
    by apply three_temperatures_chronological.
  split; [exact Hsorted |].
  exact (proj1 (proj2 (chronological_kept three_temperatures Hsorted))).
Defined.

Lemma latest_is_newest_when_chronological_witness :
  let devices := fold_left latest_step (sensor_data three_temperatures) ∅ in
  chronological (sensor_data three_temperatures)
  /\ run (get_latest_data true) three_temperatures
     = (inr (latest_per_device 2 devices), three_temperatures)
  /\ devices !! "A" = Some (stored "A" 20 "2024-05-17T11:23:45")
  /\ exists i : nat,
       sensor_data three_temperatures !! i
       = Some (stored "A" 20 "2024-05-17T11:23:45")
       /\ forall (j : nat) y,
            sensor_data three_temperatures !! j = Some y ->
            Py.strip (device_id y) = "A" -> (j <= i)%nat.
Proof.
  intros devices.
  assert (Hsorted : chronological (sensor_data three_temperatures))
    by apply three_temperatures_chronological.
  assert (Hrun : run (get_latest_data true) three_temperatures
                 = (inr (latest_per_device 2 devices), three_temperatures))
    by reflexivity.
  assert (Hentry : devices !! "A" = Some (stored "A" 20 "2024-05-17T11:23:45"))
    by (vm_compute; reflexivity).
  split; [exact Hsorted |]. split; [exact Hrun |]. split; [exact Hentry |].
  destruct (latest_is_newest_when_chronological _ _ _ _ _ Hsorted Hrun Hentry)
    as (i & Hi & _ & Hstrict).
  exists i. split; [exact Hi |].
  apply Hstrict, three_temperatures_chronological.
Defined.

Lemma unsaved_readings_bounded_witness :
  let srv' := after two_arrivals (server_with []) in
  ingests (server_with []) two_arrivals srv'
  /\ Forall (fun a => disk_ok a = true) two_arrivals
  /\ unsaved_tail (server_with []) []
  /\ exists tail',
       sensor_data srv' = persisted srv' ++ tail' /\ Py.len tail' <= 9.
Proof.
  intros srv'.
  assert (Hrun : ingests (server_with []) two_arrivals srv')
    by (apply ingests_after; reflexivity).
  assert (Hok : Forall (fun a => disk_ok a = true) two_arrivals)
    by (repeat constructor).
  assert (Htail : unsaved_tail (server_with []) [])
    by (split; [reflexivity | discriminate]).
  split; [exact Hrun |]. split; [exact Hok |]. split; [exact Htail |].
  destruct (unsaved_readings_bounded _ _ _ _ Hrun Hok Htail)
    as (tail' & _ & Hmem & Hlen).
  exists tail'. split; [exact Hmem | exact Hlen].
Defined.

Lemma empty_store_answers_witness :
  sensor_data (server_with []) = []
  /\ run (get_statistics (H := isoformat_datetime)) (server_with [])
     = (inl NoDataForAnalysis, server_with [])
  /\ forall show_all_devices,
       run (get_latest_data show_all_devices) (server_with [])
       = (inl NoSensorData, server_with []).
Proof.
  assert (Hempty : sensor_data (server_with []) = []) by reflexivity.
  split; [exact Hempty |].
  destruct (@empty_store_answers isoformat_datetime (server_with []) Hempty)
    as (_ & _ & _ & _ & _ & Hlatest & _ & Hstats).
  split; [exact Hstats | exact Hlatest].
Defined.

Lemma returned_id_usable_witness :
  let srv' := after [arrival " B " "2024-05-17T10:00:01"] nine_stored in
  (exists reply,
     run (receive_sensor_data "2024-05-17T10:00:01" true (reading_from " B "))
         nine_stored = (inr reply, srv')
     /\ stored_device_id (data reply) = "B")
  /\ exists reply2 srv2 found,
       run (receive_sensor_data "2024-05-17T10:00:02" true (reading_from "B"))
           srv' = (inr reply2, srv2)
       /\ stored_device_id (data reply2) = "B"
       /\ run (get_data_by_device "B") srv2 = (inr found, srv2).
Proof.
  intros srv'.
  assert (Hrun : run (receive_sensor_data "2024-05-17T10:00:01" true
                        (reading_from " B ")) nine_stored
                 = (inr {| status := "success";
                           message := "Data received and stored successfully";
                           data := {| records_stored := 10;
                                      stored_device_id := "B" |} |}, srv'))
    by reflexivity.
  split; [eexists; split; [exact Hrun | reflexivity] |].
  destruct (returned_id_usable _ _ _ _ _ _ Hrun "2024-05-17T10:00:02" true
              (reading_from "B") srv' eq_refl)
    as (reply2 & srv2 & found & Hrun2 & Hid2 & _ & _ & Hfound & _).
  exists reply2, srv2, found.
  split; [exact Hrun2 |]. split; [exact Hid2 | exact Hfound].
Defined.

Lemma range_filters_monotone_witness :
  (5 <=? 10)%float = true /\ (20 <=? 30)%float = true
  /\ forall found found',
       run (get_data_by_temperature 10 20) three_temperatures
       = (inr found, three_temperatures) ->
       run (get_data_by_temperature 5 30) three_temperatures
       = (inr found', three_temperatures) ->
       filtered_data found `sublist_of` filtered_data found'
       /\ total_matching found <= total_matching found'.
Proof.
  assert (Hlo : (5 <=? 10)%float = true) by reflexivity.
  assert (Hhi : (20 <=? 30)%float = true) by reflexivity.
  split; [exact Hlo |]. split; [exact Hhi |].
  exact (proj1 (proj2 (@range_filters_monotone isoformat_datetime
                         three_temperatures 10 20 5 30 Hlo Hhi))).
Defined.
